(** * stm32_rng: the STM32 hardware random number generator driver

    A shallow embedding of [drivers/crypto/stm32_rng.c].  The driver talks to
    three memory-mapped 32-bit registers and to a gating clock.  Registers
    belong to the hardware, so the peripheral is an interface ([Peripheral]):
    any type of device states with a read and a write transition.  The driver
    functions are written in a small state monad over a [world] that holds the
    peripheral, the clock, the caller's memory and the chronological record of
    every access the driver made. *)

From Stdlib Require Import ZArith List Bool Lia.
From Equations Require Import Equations.
Import ListNotations.

Local Open Scope Z_scope.

(** ** Machine integers *)

(** [u32]: a value truncated to 32 bits. *)
Definition u32_of (z : Z) : Z := z mod 2 ^ 32.

(** Conversion to [int] (two's complement, 32 bits), as GCC performs it. *)
Definition int_of (z : Z) : Z := (z + 2 ^ 31) mod 2 ^ 32 - 2 ^ 31.

(** [sizeof(u32)]. *)
Definition sizeof_u32 : Z := 4.

(** [EIO] of errno-base.h. *)
Definition EIO : Z := 5.

(** [BIT(nr)] of linux/bitops.h: [1UL << nr]. *)
Definition BIT (nr : Z) : Z := Z.shiftl 1 nr.

(** ** Register map (lines 29-46 of the source) *)

Definition RNG_CR : Z := 0.
Definition RNG_CR_RNGEN : Z := BIT 2.

Definition RNG_SR : Z := 4.
Definition RNG_SR_SEIS : Z := BIT 6.
Definition RNG_SR_CEIS : Z := BIT 5.
Definition RNG_SR_DRDY : Z := BIT 0.

Definition RNG_DR : Z := 8.

Definition RNG_TIMEOUT : Z := 500.

(** ** The peripheral *)

(** The register block behind [priv->base].  [mmio_read off s] is the value
    the device presents at offset [off] in state [s] and the state it moves
    to (reading the data register consumes the word, time passes between two
    polls); [mmio_write v off s] is the state after a store of [v]. *)
Class Peripheral (hw : Type) : Type := {
  mmio_read : Z -> hw -> Z * hw;
  mmio_write : Z -> Z -> hw -> hw
}.

(** ** The clock *)

(** Modelled from the spec: the clock framework of linux/clk.h ([clk_prepare],
    [clk_unprepare], [clk_enable], [clk_disable]) is not part of the driver
    file.  The spec calls the clock an opaque, possibly reference-counted
    capability with these four operations, where preparation can fail: a
    clock is a prepare count, an enable count and the error its prepare
    operation reports (0 when it succeeds). *)
Record clk : Type := Clk {
  prepare_count : nat;
  enable_count : nat;
  prepare_errno : Z
}.

Definition prepared (c : clk) : bool := negb (Nat.eqb (prepare_count c) 0).

(** ** Everything the driver can observe or change *)

Inductive event : Type :=
| ClkPrepare (ret : Z)
| ClkUnprepare
| ClkEnable
| ClkDisable
| Readl (off v : Z)
| Writel (v off : Z)
| Store32 (addr v : Z)
| Warn.

Record world (hw : Type) : Type := World {
  dev : hw;
  clock : clk;
  ram : Z -> Z;
  log : list event
}.

Arguments World {hw} _ _ _ _.
Arguments dev {hw} _.
Arguments clock {hw} _.
Arguments ram {hw} _ _.
Arguments log {hw} _.

(** The state monad the driver runs in. *)
Definition M (hw A : Type) : Type := world hw -> A * world hw.

Definition ret {hw A : Type} (a : A) : M hw A := fun w => (a, w).

Definition bind {hw A B : Type} (m : M hw A) (k : A -> M hw B) : M hw B :=
  fun w => let (a, w') := m w in k a w'.

Declare Scope drv_scope.
Delimit Scope drv_scope with drv.
Notation "x <- m ;; k" := (bind m (fun x => k))
  (at level 61, m at next level, right associativity) : drv_scope.
Notation "m ;;; k" := (bind m (fun _ => k))
  (at level 61, right associativity) : drv_scope.

Definition emit {hw : Type} (e : event) (w : world hw) : world hw :=
  World (dev w) (clock w) (ram w) (log w ++ [e]).

(** ** Memory: the caller's buffer *)

(** Byte [i] of a 32-bit word (the target is little-endian). *)
Definition byte_of (v i : Z) : Z := Z.land (Z.shiftr v (8 * i)) 255.

(** [*(u32 * )addr = v]. *)
Definition store_u32 (addr v : Z) (m : Z -> Z) : Z -> Z :=
  fun a => if (addr <=? a) && (a <? addr + sizeof_u32) then byte_of v (a - addr) else m a.

Definition load_u32 (m : Z -> Z) (addr : Z) : Z :=
  m addr + 2 ^ 8 * m (addr + 1) + 2 ^ 16 * m (addr + 2) + 2 ^ 24 * m (addr + 3).

(** What one pass through the body of a loop decides. *)
Inductive flow : Type := LoopBreak | LoopNext.

Section Driver.

Context {hw : Type} `{Peripheral hw}.

Local Open Scope drv_scope.

(** *** Kernel primitives the driver calls *)

(** Modelled from the spec: [clk_prepare] of linux/clk.h, not part of the
    driver file.  Preparation can fail; when it succeeds the clock is
    prepared once more. *)
Definition clk_prepare : M hw Z := fun w =>
  let c := clock w in
  let c' := if prepare_errno c =? 0
            then Clk (S (prepare_count c)) (enable_count c) (prepare_errno c)
            else c in
  (prepare_errno c,
   World (dev w) c' (ram w) (log w ++ [ClkPrepare (prepare_errno c)])).

(** Modelled from the spec: [clk_unprepare] of linux/clk.h, the inverse of
    [clk_prepare]. *)
Definition clk_unprepare : M hw unit := fun w =>
  let c := clock w in
  (tt, World (dev w) (Clk (Nat.pred (prepare_count c)) (enable_count c) (prepare_errno c))
             (ram w) (log w ++ [ClkUnprepare])).

(** Modelled from the spec: [clk_enable] of linux/clk.h.  The driver ignores
    its result. *)
Definition clk_enable : M hw unit := fun w =>
  let c := clock w in
  (tt, World (dev w) (Clk (prepare_count c) (S (enable_count c)) (prepare_errno c))
             (ram w) (log w ++ [ClkEnable])).

(** Modelled from the spec: [clk_disable] of linux/clk.h. *)
Definition clk_disable : M hw unit := fun w =>
  let c := clock w in
  (tt, World (dev w) (Clk (prepare_count c) (Nat.pred (enable_count c)) (prepare_errno c))
             (ram w) (log w ++ [ClkDisable])).

(** [readl(priv->base + off)]: a 32-bit read of the register block. *)
Definition readl (off : Z) : M hw Z := fun w =>
  let (v, d) := mmio_read off (dev w) in
  (u32_of v, World d (clock w) (ram w) (log w ++ [Readl off (u32_of v)])).

(** [writel(v, priv->base + off)]: a 32-bit write; [v] is taken as a [u32]. *)
Definition writel (v off : Z) : M hw unit := fun w =>
  (tt, World (mmio_write (u32_of v) off (dev w)) (clock w) (ram w)
             (log w ++ [Writel (u32_of v) off])).

(** [*(u32 * )data = v]. *)
Definition poke_u32 (data v : Z) : M hw unit := fun w =>
  (tt, World (dev w) (clock w) (store_u32 data v (ram w)) (log w ++ [Store32 data v])).

(** Modelled from the spec: [cpu_relax()] of asm/processor.h is not part of
    the driver file; the wait is a busy poll, and the hint between two polls
    changes nothing the driver observes. *)
Definition cpu_relax : M hw unit := ret tt.

(** Modelled from the spec: [WARN_ON(cond)] of asm-generic/bug.h is not part
    of the driver file; a detected fault is reported as a diagnostic, and the
    macro yields whether [cond] is non-zero. *)
Definition WARN_ON (cond : Z) : M hw bool := fun w =>
  if cond =? 0 then (false, w) else (true, emit Warn w).

(** *** [stm32_rng_read] *)

(** Lines 71-74: [do { cpu_relax(); sr = readl(SR); } while (!sr && --timeout)].
    [timeout] is an [unsigned int]; the pre-decrement wraps. *)
Equations? busy_wait (timeout : Z) (w : world hw) : Z * world hw
  by wf (Z.to_nat (u32_of (timeout - 1))) lt :=
busy_wait timeout w with (cpu_relax ;;; readl RNG_SR) w => {
  | (sr, w1) with Z.eq_dec sr 0 => {
    | right _ := (sr, w1)
    | left _ with Z.eq_dec (u32_of (timeout - 1)) 0 => {
      | left _ := (sr, w1)
      | right _ := busy_wait (u32_of (timeout - 1)) w1 } } }.
Proof.
  unfold u32_of in *.
  pose proof (Z.mod_pos_bound (timeout - 1) (2 ^ 32) ltac:(lia)).
  rewrite (Z.mod_small (_ - 1)) by lia. lia.
Qed.

(** Lines 67-75: one status snapshot, polled again while it reads zero and
    the caller waits. *)
Definition snapshot (wait : bool) : M hw Z :=
  sr <- readl RNG_SR ;;
  if (sr =? 0) && wait then busy_wait RNG_TIMEOUT else ret sr.

(** Lines 67-85: the loop body up to and including the store. *)
Definition drain_word (data : Z) (wait : bool) : M hw flow :=
  sr <- snapshot wait ;;
  fault <- WARN_ON (Z.land sr (Z.lor RNG_SR_SEIS RNG_SR_CEIS)) ;;
  if fault : bool then ret LoopBreak
  else if sr =? 0 then ret LoopBreak
  else v <- readl RNG_DR ;;
       poke_u32 data v ;;;
       ret LoopNext.

(** Lines 66-90: [while (max > sizeof(u32)) { ... }]; yields [retval].
    ([max] is written [len]: [max] is a function of the library.) *)
Equations? drain (len data retval : Z) (wait : bool) (w : world hw) : Z * world hw
  by wf (Z.to_nat len) lt :=
drain len data retval wait w with Z_gt_dec len sizeof_u32 => {
  | right _ := (retval, w)
  | left _ with drain_word data wait w => {
    | (LoopBreak, w1) := (retval, w1)
    | (LoopNext, w1) := drain (len - sizeof_u32) (data + sizeof_u32)
                              (int_of (retval + sizeof_u32)) wait w1 } }.
Proof. unfold sizeof_u32 in *. lia. Qed.

(** Line 96: [retval || !wait ? retval : -EIO]. *)
Definition read_result (retval : Z) (wait : bool) : Z :=
  if negb (retval =? 0) || negb wait then retval else - EIO.

Definition stm32_rng_read (data max : Z) (wait : bool) : M hw Z :=
  clk_enable ;;;
  cr <- readl RNG_CR ;;
  writel (Z.lor cr RNG_CR_RNGEN) RNG_CR ;;;
  retval <- drain max data 0 wait ;;
  writel cr RNG_CR ;;;
  clk_disable ;;;
  ret (read_result retval wait).

(** *** [stm32_rng_init] and [stm32_rng_cleanup] *)

Definition stm32_rng_init : M hw Z :=
  err <- clk_prepare ;;
  if negb (err =? 0) then ret err
  else sr <- readl RNG_SR ;;
       writel (Z.land sr (Z.lnot (Z.lor RNG_SR_SEIS RNG_SR_CEIS))) RNG_SR ;;;
       ret 0.

Definition stm32_rng_cleanup : M hw unit := clk_unprepare.

End Driver.

(** ** Reading the record of a call *)

(** What a call added to the record: [before] is the world it started in. *)
Definition emitted {hw : Type} (before after : world hw) : list event :=
  skipn (length (log before)) (log after).

(** Seed-Error or Clock-Error is set in a status snapshot (line 78). *)
Definition fault (sr : Z) : Prop :=
  Z.land sr (Z.lor RNG_SR_SEIS RNG_SR_CEIS) <> 0.

Definition is_poll (e : event) : bool :=
  match e with Readl off _ => off =? RNG_SR | _ => false end.

Definition is_data_read (e : event) : bool :=
  match e with Readl off _ => off =? RNG_DR | _ => false end.

(** Number of reads of the status register. *)
Definition status_polls (evs : list event) : nat := length (filter is_poll evs).

(** Number of reads of the data register. *)
Definition data_reads (evs : list event) : nat := length (filter is_data_read evs).

(** The words put into memory, with their addresses, in order. *)
Fixpoint stored (evs : list event) : list (Z * Z) :=
  match evs with
  | [] => []
  | Store32 a v :: evs' => (a, v) :: stored evs'
  | _ :: evs' => stored evs'
  end.

Definition bytes_written (evs : list event) : Z :=
  sizeof_u32 * Z.of_nat (length (stored evs)).

(** The addresses of [k] consecutive words from [data] on. *)
Definition word_slots (data : Z) (k : nat) : list Z :=
  map (fun i => data + sizeof_u32 * Z.of_nat i) (seq 0 k).

(** The largest [int]. *)
Definition INT_MAX : Z := 2 ^ 31 - 1.

(** The memory after the stores of [evs]. *)
Fixpoint replay (evs : list event) (m : Z -> Z) : Z -> Z :=
  match evs with
  | [] => m
  | Store32 a v :: evs' => replay evs' (store_u32 a v m)
  | _ :: evs' => replay evs' m
  end.

(** The events of the loop of [stm32_rng_read]: status and data reads, stores
    to the buffer and warnings, nothing on the control register or the clock. *)
Definition loop_event (e : event) : Prop :=
  match e with
  | Readl off _ => off = RNG_SR \/ off = RNG_DR
  | Store32 _ _ | Warn => True
  | _ => False
  end.

(** A value read from a register is one the peripheral presents in some state. *)
Definition presented {hw : Type} `{Peripheral hw} (e : event) : Prop :=
  match e with
  | Readl off v => exists s : hw, v = u32_of (fst (mmio_read off s))
  | _ => True
  end.

(** The status register holds only the three flags the driver defines. *)
Definition defined_flags (sr : Z) : Prop :=
  Z.land sr (Z.lnot (Z.lor RNG_SR_DRDY (Z.lor RNG_SR_SEIS RNG_SR_CEIS))) = 0.

(** A peripheral that never reports Data-Ready, whatever its state. *)
Definition never_ready (hw : Type) `{Peripheral hw} : Prop :=
  forall s : hw,
    let sr := u32_of (fst (mmio_read RNG_SR s)) in
    Z.land sr RNG_SR_DRDY = 0 /\ defined_flags sr.

(** A peripheral whose status register always reads zero. *)
Definition always_idle (hw : Type) `{Peripheral hw} : Prop :=
  forall s : hw, u32_of (fst (mmio_read RNG_SR s)) = 0.

(** A status read that shows a fault. *)
Definition faulty_poll (e : event) : Prop :=
  match e with
  | Readl off sr => off = RNG_SR /\ fault sr
  | _ => False
  end.

(** In [evs], whatever follows a status read that shows a fault is [tail]. *)
Fixpoint stops_on_fault (tail evs : list event) : Prop :=
  match evs with
  | [] => True
  | e :: rest => (faulty_poll e -> rest = tail) /\ stops_on_fault tail rest
  end.

(** A snapshot on which the loop reads no data: empty, or showing a fault. *)
Definition quiet (sr : Z) : Prop := sr = 0 \/ fault sr.

(** Every data read of [evs] comes straight after a status read of a
    non-zero snapshot without fault; [prev] is the event before [evs]. *)
Fixpoint reads_gated (prev : event) (evs : list event) : Prop :=
  match evs with
  | [] => True
  | e :: rest =>
      (is_data_read e = true ->
       exists sr, prev = Readl RNG_SR sr /\ sr <> 0 /\ ~ fault sr) /\
      reads_gated e rest
  end.

(** ** Simulated peripherals *)

(** A scripted device: the status register presents the values of
    [sim_status] one after the other and [sim_idle] once they are used up; the
    data register presents the words of [sim_data]; the control register keeps
    what was written to it. *)
Record sim : Type := Sim {
  sim_cr : Z;
  sim_status : list Z;
  sim_idle : Z;
  sim_data : list Z
}.

#[export] Instance sim_rng : Peripheral sim := {
  mmio_read off s :=
    if off =? RNG_CR then (sim_cr s, s)
    else if off =? RNG_SR then
      (hd (sim_idle s) (sim_status s),
       Sim (sim_cr s) (tl (sim_status s)) (sim_idle s) (sim_data s))
    else if off =? RNG_DR then
      (hd 0 (sim_data s), Sim (sim_cr s) (sim_status s) (sim_idle s) (tl (sim_data s)))
    else (0, s);
  mmio_write v off s :=
    if off =? RNG_CR then Sim v (sim_status s) (sim_idle s) (sim_data s) else s
}.

(** A device whose status register is stuck at [sr] and whose data register
    reads [dr]. *)
Definition stuck (sr dr : Z) : Peripheral unit := {|
  mmio_read off s := (if off =? RNG_SR then sr else if off =? RNG_DR then dr else 0, s);
  mmio_write v off s := s
|}.

(** A prepared, disabled clock whose preparation succeeds. *)
Definition gated_clk : clk := Clk 1 0 0.

Definition zeroed : Z -> Z := fun _ => 0.

(** The world before the first call: device [d], zeroed memory, empty record. *)
Definition fresh {hw : Type} (d : hw) : world hw := World d gated_clk zeroed [].

(** Ready on every poll. *)
Definition always_ready : sim := Sim 0 [] RNG_SR_DRDY [11; 22; 33; 44].

(** Two ready words, then Seed-Error. *)
Definition seed_error_after_two : sim :=
  Sim 0 [RNG_SR_DRDY; RNG_SR_DRDY; RNG_SR_SEIS] 0 [11; 22; 33].

(** Nothing for the first [k] polls, Data-Ready from then on, with the word
    [v] to read. *)
Definition ready_after (k : nat) (v : Z) : sim :=
  Sim 0 (repeat 0 k) RNG_SR_DRDY [v].

(** ** The shape of a run of the loop *)

(** The status reads of one pass, [sr] being the snapshot the pass goes on
    with: one read, or one read and a busy-wait of at most [RNG_TIMEOUT]. *)
Inductive polled (wait : bool) (sr : Z) : list event -> Prop :=
| polled_once :
    sr <> 0 \/ wait = false ->
    polled wait sr [Readl RNG_SR sr]
| polled_wait (n : nat) :
    wait = true ->
    (n < Z.to_nat RNG_TIMEOUT)%nat ->
    sr <> 0 \/ S n = Z.to_nat RNG_TIMEOUT ->
    polled wait sr (Readl RNG_SR 0 :: repeat (Readl RNG_SR 0) n ++ [Readl RNG_SR sr]).

(** [drained wait len data rv evs rv']: the loop entered with [max = len],
    the buffer pointer [data] and [retval = rv] emits [evs] and leaves
    [retval = rv']. *)
Inductive drained (wait : bool) : Z -> Z -> Z -> list event -> Z -> Prop :=
| drained_full len data rv :
    len <= sizeof_u32 ->
    drained wait len data rv [] rv
| drained_empty len data rv ps :
    len > sizeof_u32 ->
    polled wait 0 ps ->
    drained wait len data rv ps rv
| drained_fault len data rv sr ps :
    len > sizeof_u32 ->
    polled wait sr ps ->
    fault sr ->
    drained wait len data rv (ps ++ [Warn]) rv
| drained_word len data rv sr ps v evs rv' :
    len > sizeof_u32 ->
    polled wait sr ps ->
    sr <> 0 ->
    ~ fault sr ->
    drained wait (len - sizeof_u32) (data + sizeof_u32) (int_of (rv + sizeof_u32)) evs rv' ->
    drained wait len data rv (ps ++ Readl RNG_DR v :: Store32 data v :: evs) rv'.

(** ** Further readings of the record *)

(** The words read from the data register, in order. *)
Fixpoint data_values (evs : list event) : list Z :=
  match evs with
  | [] => []
  | Readl off v :: evs' =>
      if off =? RNG_DR then v :: data_values evs' else data_values evs'
  | _ :: evs' => data_values evs'
  end.

Definition is_warn (e : event) : bool :=
  match e with Warn => true | _ => false end.

(** A status read with Seed-Error or Clock-Error set. *)
Definition shows_fault (e : event) : bool :=
  match e with
  | Readl off sr =>
      (off =? RNG_SR) && negb (Z.land sr (Z.lor RNG_SR_SEIS RNG_SR_CEIS) =? 0)
  | _ => false
  end.

Definition warnings (evs : list event) : nat := length (filter is_warn evs).

Definition fault_polls (evs : list event) : nat := length (filter shows_fault evs).

(** A peripheral whose every status snapshot is non-zero and free of faults:
    the loop takes each of them for a ready word. *)
Definition ever_ready (hw : Type) `{Peripheral hw} : Prop :=
  forall s : hw,
    let sr := u32_of (fst (mmio_read RNG_SR s)) in
    sr <> 0 /\ ~ fault sr.

(** The clock is switched on and off in turns, starting from [on] and ending
    off; it is neither prepared nor unprepared; registers are accessed and
    words stored only while it is on. *)
Fixpoint bracketed (on : bool) (evs : list event) : Prop :=
  match evs with
  | [] => on = false
  | ClkEnable :: rest => on = false /\ bracketed true rest
  | ClkDisable :: rest => on = true /\ bracketed false rest
  | ClkPrepare _ :: _ | ClkUnprepare :: _ => False
  | _ :: rest => on = true /\ bracketed on rest
  end.

(** ** The peripheral, poll after poll *)

(** What the status register presents in state [s]. *)
Definition status_of {hw : Type} `{Peripheral hw} (s : hw) : Z :=
  u32_of (fst (mmio_read RNG_SR s)).

(** The state of the peripheral after [n] reads of the status register. *)
Fixpoint after_polls {hw : Type} `{Peripheral hw} (n : nat) (s : hw) : hw :=
  match n with
  | O => s
  | S n' => after_polls n' (snd (mmio_read RNG_SR s))
  end.

(** The state in which [stm32_rng_read] leaves the peripheral when it enters
    its loop: the control register read, and written with the enable bit. *)
Definition acquired {hw : Type} `{Peripheral hw} (s : hw) : hw :=
  mmio_write (u32_of (Z.lor (u32_of (fst (mmio_read RNG_CR s))) RNG_CR_RNGEN)) RNG_CR
             (snd (mmio_read RNG_CR s)).

(** The next [n] reads of the status register all give zero. *)
Definition silent_for {hw : Type} `{Peripheral hw} (n : nat) (s : hw) : Prop :=
  forall j : nat, (j < n)%nat -> status_of (after_polls j s) = 0.

(** [silent_for], computed. *)
Definition silent_forb {hw : Type} `{Peripheral hw} (n : nat) (s : hw) : bool :=
  forallb (fun j => status_of (after_polls j s) =? 0) (seq 0 n).

(** ** The driver in use *)

Section Caller.

Context {hw : Type} `{Peripheral hw}.

Local Open Scope drv_scope.

(** The callbacks that [stm32_rng_probe] registers (lines 165-167) are called
    by the hwrng core in this order: [init] once, [read] any number of times,
    [cleanup] once.  A request is the buffer, [max] and [wait]. *)
Fixpoint read_all (reqs : list (Z * Z * bool)) : M hw (list Z) :=
  match reqs with
  | [] => ret []
  | (data, len, wait) :: rest =>
      r <- stm32_rng_read data len wait ;;
      rs <- read_all rest ;;
      ret (r :: rs)
  end.

Definition session (reqs : list (Z * Z * bool)) : M hw (Z * list Z) :=
  err <- stm32_rng_init ;;
  if negb (err =? 0) then ret (err, [])
  else rs <- read_all reqs ;;
       stm32_rng_cleanup ;;;
       ret (0, rs).

End Caller.

(** ** Binding to a device: [stm32_rng_probe] and [stm32_rng_remove] *)

(** [ENOMEM] of errno-base.h. *)
Definition ENOMEM : Z := 12.

(** [IS_ERR(ptr)] of linux/err.h: the last [MAX_ERRNO] addresses stand for
    errors; a pointer is read here as a signed number. *)
Definition MAX_ERRNO : Z := 4095.

Definition IS_ERR (ptr : Z) : bool := (- MAX_ERRNO <=? ptr) && (ptr <? 0).

(** An [int] variable, which may never have been assigned
    ([int err;] on line 143). *)
Inductive cint : Type :=
| Known (z : Z)
| Unassigned.

(** [struct stm32_rng_private] (lines 48-52).  [priv_rng] tells whether the
    name and the callbacks of [rng] have been filled in (lines 164-168);
    [kzalloc] hands the structure out zeroed. *)
Record stm32_rng_private : Type := Priv {
  priv_rng : bool;
  priv_base : Z;
  priv_clk : Z
}.

(** What [dev_err] is asked to say (lines 153, 160, 172). *)
Inductive complaint : Type :=
| FailedIomap
| NoClock
| FailedRegister (err : Z).

(** The kernel services the two functions call, in the order called. *)
Inductive bind_event : Type :=
| Kzalloc (ok : bool)
| DevSetDrvdata
| OfIomap (base : Z)
| DevmClkGet (ptr : Z)
| HwrngRegister (ret : Z)
| DevErr (what : complaint)
| HwrngUnregister
| Iounmap (base : Z)
| Kfree.

(** What the services answer to one call of [stm32_rng_probe]: whether
    [kzalloc] finds memory, the address [of_iomap] returns (0 is [NULL]), the
    pointer [devm_clk_get] returns and the result of [hwrng_register]. *)
Record services : Type := Services {
  kzalloc_ok : bool;
  of_iomap_ret : Z;
  devm_clk_get_ret : Z;
  hwrng_register_ret : Z
}.

(** The platform device: [heap] is the private structure while it is
    allocated, [drvdata] tells whether the driver data of the device points
    to it (the pointer [priv] and the driver data are one address), [calls]
    is the record of the services called. *)
Record platform_device : Type := Pdev {
  heap : option stm32_rng_private;
  drvdata : bool;
  calls : list bind_event
}.

(** State passing for the two functions; [None] when a pointer that is
    [NULL] or freed is followed. *)
Definition B (A : Type) : Type := platform_device -> option (A * platform_device).

Definition bret {A : Type} (a : A) : B A := fun d => Some (a, d).

Definition bbind {A C : Type} (m : B A) (k : A -> B C) : B C :=
  fun d => match m d with
           | Some (a, d') => k a d'
           | None => None
           end.

Declare Scope probe_scope.
Delimit Scope probe_scope with probe.
Notation "x <- m ;; k" := (bbind m (fun x => k))
  (at level 61, m at next level, right associativity) : probe_scope.
Notation "m ;;; k" := (bbind m (fun _ => k))
  (at level 61, right associativity) : probe_scope.

Definition called (e : bind_event) : B unit :=
  fun d => Some (tt, Pdev (heap d) (drvdata d) (calls d ++ [e])).

Section Binding.

Variable s : services.

Local Open Scope probe_scope.

(** [kzalloc(sizeof( * priv), GFP_KERNEL)]: a zeroed structure, or [NULL]. *)
Definition kzalloc : B bool := fun d =>
  Some (kzalloc_ok s,
        Pdev (if kzalloc_ok s then Some (Priv false 0 0) else heap d) (drvdata d)
             (calls d ++ [Kzalloc (kzalloc_ok s)])).

Definition dev_set_drvdata : B unit := fun d =>
  Some (tt, Pdev (heap d) true (calls d ++ [DevSetDrvdata])).

(** [dev_get_drvdata(dev)]: whether the pointer found is not [NULL]. *)
Definition dev_get_drvdata : B bool := fun d => Some (drvdata d, d).

(** Following the pointer [priv]. *)
Definition deref (p : bool) : B stm32_rng_private := fun d =>
  if p then match heap d with
            | Some o => Some (o, d)
            | None => None
            end
  else None.

(** Assignments through [priv]. *)
Definition assign (f : stm32_rng_private -> stm32_rng_private) : B unit := fun d =>
  match heap d with
  | Some o => Some (tt, Pdev (Some (f o)) (drvdata d) (calls d))
  | None => None
  end.

Definition of_iomap : B Z :=
  called (OfIomap (of_iomap_ret s)) ;;; bret (of_iomap_ret s).

Definition devm_clk_get : B Z :=
  called (DevmClkGet (devm_clk_get_ret s)) ;;; bret (devm_clk_get_ret s).

Definition hwrng_register : B Z :=
  called (HwrngRegister (hwrng_register_ret s)) ;;; bret (hwrng_register_ret s).

Definition hwrng_unregister : B unit := called HwrngUnregister.

Definition iounmap (base : Z) : B unit := called (Iounmap base).

(** [kfree(priv)]: the structure is gone; the driver data keeps pointing
    where it was. *)
Definition kfree : B unit := fun d =>
  Some (tt, Pdev None (drvdata d) (calls d ++ [Kfree])).

Definition dev_err (what : complaint) : B unit := called (DevErr what).

(** Lines 126-136. *)
Definition stm32_rng_remove : B Z :=
  p <- dev_get_drvdata ;;
  hwrng_unregister ;;;
  priv <- deref p ;;
  iounmap (priv_base priv) ;;;
  kfree ;;;
  bret 0.

(** Lines 178-181: the label [err_out], entered with [err] as it is. *)
Definition err_out (err : cint) : B cint :=
  stm32_rng_remove ;;;
  bret err.

(** Lines 138-182.  [err] is declared without a value and first assigned on
    line 154 or line 170. *)
Definition stm32_rng_probe : B cint :=
  ok <- kzalloc ;;
  if negb ok then bret (Known (- ENOMEM))
  else
    dev_set_drvdata ;;;
    base <- of_iomap ;;
    assign (fun o => Priv (priv_rng o) base (priv_clk o)) ;;;
    if base =? 0 then
      dev_err FailedIomap ;;;
      err_out (Known (- ENOMEM))
    else
      ptr <- devm_clk_get ;;
      assign (fun o => Priv (priv_rng o) (priv_base o) ptr) ;;;
      if IS_ERR ptr then
        dev_err NoClock ;;;
        err_out Unassigned
      else
        assign (fun o => Priv true (priv_base o) (priv_clk o)) ;;;
        err <- hwrng_register ;;
        if negb (err =? 0) then
          dev_err (FailedRegister err) ;;;
          err_out (Known err)
        else bret (Known 0).

End Binding.

(** The services called since [before]. *)
Definition called_since (before after : platform_device) : list bind_event :=
  skipn (length (calls before)) (calls after).

(** Every step of [stm32_rng_probe] succeeds. *)
Definition all_well (s : services) : bool :=
  kzalloc_ok s && negb (of_iomap_ret s =? 0) && negb (IS_ERR (devm_clk_get_ret s))
  && (hwrng_register_ret s =? 0).

(** ** Machine integers: facts *)

Lemma u32_of_range (z : Z) : 0 <= u32_of z < 2 ^ 32.
Proof. unfold u32_of. apply Z.mod_pos_bound. lia. Qed.

Lemma u32_of_small (z : Z) : 0 <= z < 2 ^ 32 -> u32_of z = z.
Proof. intros. unfold u32_of. apply Z.mod_small. assumption. Qed.

Lemma u32_of_ones (z : Z) : u32_of z = Z.land z (Z.ones 32).
Proof. unfold u32_of. rewrite Z.land_ones by lia. reflexivity. Qed.

Lemma u32_of_idem (z : Z) : u32_of (u32_of z) = u32_of z.
Proof. apply u32_of_small, u32_of_range. Qed.

Lemma u32_of_lor (a b : Z) : u32_of (Z.lor a b) = Z.lor (u32_of a) (u32_of b).
Proof. rewrite !u32_of_ones. apply Z.land_lor_distr_l. Qed.

Lemma u32_of_land (a b : Z) : u32_of (Z.land (u32_of a) b) = Z.land (u32_of a) b.
Proof.
  rewrite !u32_of_ones.
  rewrite <- !Z.land_assoc, (Z.land_comm b), !Z.land_assoc, <- (Z.land_assoc a).
  rewrite Z.land_diag. reflexivity.
Qed.

Lemma int_of_small (z : Z) : - 2 ^ 31 <= z < 2 ^ 31 -> int_of z = z.
Proof. intros. unfold int_of. rewrite Z.mod_small; lia. Qed.

Lemma int_of_add (z k : Z) : int_of (int_of z + k) = int_of (z + k).
Proof.
  unfold int_of.
  replace ((z + 2 ^ 31) mod 2 ^ 32 - 2 ^ 31 + k + 2 ^ 31)
    with ((z + 2 ^ 31) mod 2 ^ 32 + k) by lia.
  rewrite Zplus_mod_idemp_l. f_equal. f_equal. lia.
Qed.

(** ** Records: facts *)

Lemma replay_app (a b : list event) (m : Z -> Z) :
  replay (a ++ b) m = replay b (replay a m).
Proof.
  revert m. induction a as [|e a IH]; intros m; [reflexivity|].
  destruct e; cbn; apply IH.
Qed.

Lemma stored_app (a b : list event) : stored (a ++ b) = stored a ++ stored b.
Proof.
  induction a as [|e a IH]; [reflexivity|].
  destruct e; cbn; rewrite ?IH; reflexivity.
Qed.

Lemma polled_polls (wait : bool) (sr : Z) (ps : list event) :
  polled wait sr ps -> Forall (fun e => is_poll e = true) ps.
Proof.
  intros [_ | n _ _ _].
  - repeat constructor.
  - constructor; [reflexivity|].
    apply Forall_app. split; [|repeat constructor].
    apply Forall_forall. intros e He. apply repeat_spec in He. subst e. reflexivity.
Qed.

Lemma polls_replay (ps : list event) (m : Z -> Z) :
  Forall (fun e => is_poll e = true) ps -> replay ps m = m.
Proof.
  induction 1 as [|e ps He _ IH]; [reflexivity|].
  destruct e; cbn in *; try discriminate. assumption.
Qed.

Lemma polls_stored (ps : list event) :
  Forall (fun e => is_poll e = true) ps -> stored ps = [].
Proof.
  induction 1 as [|e ps He _ IH]; [reflexivity|].
  destruct e; cbn in *; try discriminate. assumption.
Qed.

(** The status reads [ps] of a pass store nothing. *)
Ltac forget_polls ps :=
  rewrite ?stored_app, (polls_stored ps) by (eapply polled_polls; eassumption).

Lemma emitted_app {hw : Type} (w w' : world hw) (evs : list event) :
  log w' = log w ++ evs -> emitted w w' = evs.
Proof.
  intros E. unfold emitted. rewrite E.
  rewrite skipn_app, skipn_all, Nat.sub_diag. reflexivity.
Qed.

Lemma int_of_idem (z : Z) : int_of (int_of z) = int_of z.
Proof. pose proof (int_of_add z 0) as E. rewrite !Z.add_0_r in E. exact E. Qed.

Lemma drained_loop_events (wait : bool) (len data rv : Z) (evs : list event) (rv' : Z) :
  drained wait len data rv evs rv' -> Forall loop_event evs.
Proof.
  assert (P : forall sr ps, polled wait sr ps -> Forall loop_event ps).
  { intros sr ps Hp. apply polled_polls in Hp.
    eapply Forall_impl; [|exact Hp].
    intros [] He; cbn in *; try discriminate. left. lia. }
  induction 1.
  - constructor.
  - eauto.
  - apply Forall_app. split; [eauto | repeat constructor].
  - apply Forall_app. split; [eauto|].
    constructor; [right; reflexivity|]. constructor; [exact I | assumption].
Qed.

(** [retval] counts four bytes for each stored word, as an [int]. *)
Lemma drained_retval (wait : bool) (len data rv : Z) (evs : list event) (rv' : Z) :
  drained wait len data rv evs rv' ->
  int_of rv = rv ->
  rv' = int_of (rv + bytes_written evs).
Proof.
  unfold bytes_written.
  induction 1 as [ | ? ? ? ? ? Hp | ? ? ? ? ? ? Hp ? | ? ? ? ? ? ? ? ? ? Hp ? ? ? IH ]; intros Hrv.
  - cbn. rewrite Z.add_0_r. congruence.
  - forget_polls ps.
    cbn. rewrite Z.add_0_r. congruence.
  - forget_polls ps.
    cbn. rewrite Z.add_0_r. congruence.
  - forget_polls ps.
    cbn [stored app length].
    rewrite IH by apply int_of_idem.
    rewrite int_of_add. f_equal. unfold sizeof_u32. lia.
Qed.

Lemma word_slots_succ (data : Z) (k : nat) :
  word_slots data (S k) = data :: word_slots (data + sizeof_u32) k.
Proof.
  unfold word_slots. cbn [seq map]. f_equal; [unfold sizeof_u32; lia|].
  rewrite <- seq_shift, map_map. apply map_ext.
  intros i. unfold sizeof_u32. lia.
Qed.

(** The words go to consecutive slots from [data] on, and the last stored
    word ends strictly below [data + len]. *)
Lemma drained_stored (wait : bool) (len data rv : Z) (evs : list event) (rv' : Z) :
  drained wait len data rv evs rv' ->
  map fst (stored evs) = word_slots data (length (stored evs)) /\
  (stored evs = [] \/ bytes_written evs < len).
Proof.
  unfold bytes_written.
  induction 1 as [ | ? ? ? ? ? Hp | ? ? ? ? ? ? Hp ? | ? ? ? ? ? ? ? ? ? Hp ? ? ? IH ].
  - cbn. auto.
  - forget_polls ps. cbn. auto.
  - forget_polls ps.
    cbn. auto.
  - forget_polls ps.
    cbn [stored app length map fst].
    destruct IH as [IHa IHb]. split.
    + rewrite word_slots_succ, IHa. reflexivity.
    + right. destruct IHb as [E | L].
      * rewrite E. cbn. unfold sizeof_u32 in *. lia.
      * unfold sizeof_u32 in *. lia.
Qed.

Lemma store_u32_other (addr v : Z) (m : Z -> Z) (a : Z) :
  a < addr \/ addr + sizeof_u32 <= a -> store_u32 addr v m a = m a.
Proof.
  intros Ha. unfold store_u32.
  destruct (Z.leb_spec addr a); destruct (Z.ltb_spec a (addr + sizeof_u32));
    cbn; try reflexivity; lia.
Qed.

Lemma replay_other (evs : list event) (m : Z -> Z) (a : Z) :
  Forall (fun s => a < s \/ s + sizeof_u32 <= a) (map fst (stored evs)) ->
  replay evs m a = m a.
Proof.
  revert m. induction evs as [|e evs IH]; intros m Hs; [reflexivity|].
  destruct e; cbn in *; try (apply IH; assumption).
  inversion Hs; subst. rewrite IH by assumption.
  apply store_u32_other. assumption.
Qed.

Lemma word_slots_range (data : Z) (k : nat) (s : Z) :
  In s (word_slots data k) -> data <= s /\ s + sizeof_u32 <= data + sizeof_u32 * Z.of_nat k.
Proof.
  unfold word_slots. rewrite in_map_iff. intros (i & <- & Hi).
  apply in_seq in Hi. unfold sizeof_u32. lia.
Qed.

Lemma stops_on_fault_app (tail a b : list event) :
  Forall (fun e => ~ faulty_poll e) a ->
  stops_on_fault tail b ->
  stops_on_fault tail (a ++ b).
Proof.
  induction 1 as [|e a He _ IH]; intros Hb; [assumption|].
  cbn. split; [intros F; contradiction | auto].
Qed.

Lemma stops_on_fault_clean (tail a : list event) :
  Forall (fun e => ~ faulty_poll e) a -> stops_on_fault tail a.
Proof.
  intros Ha. rewrite <- (app_nil_r a). apply stops_on_fault_app; [assumption | exact I].
Qed.

Lemma stops_on_fault_split (tail evs pre post : list event) (e : event) :
  stops_on_fault tail evs ->
  evs = pre ++ e :: post ->
  faulty_poll e ->
  post = tail.
Proof.
  revert evs. induction pre as [|x pre IH]; intros evs Hs -> He.
  - cbn in Hs. apply Hs. assumption.
  - cbn in Hs. destruct Hs as [_ Hs]. eapply IH; eauto.
Qed.

Lemma fault_zero : ~ fault 0.
Proof. unfold fault. rewrite Z.land_0_l. auto. Qed.

(** The reads of one pass: zeros, then the snapshot. *)
Lemma polled_last (wait : bool) (sr : Z) (ps : list event) :
  polled wait sr ps ->
  exists k : nat,
    ps = repeat (Readl RNG_SR 0) k ++ [Readl RNG_SR sr] /\
    (k <= Z.to_nat RNG_TIMEOUT)%nat /\
    (sr = 0 -> wait = true -> k = Z.to_nat RNG_TIMEOUT).
Proof.
  intros [Hs | n Hw Hn Hl].
  - exists 0%nat. cbn [repeat app]. split; [reflexivity|]. split; [lia|].
    intros -> ->. destruct Hs; congruence.
  - exists (S n). cbn [repeat app]. split; [reflexivity|]. split; [lia|].
    intros -> _. destruct Hl; congruence.
Qed.

Lemma repeat_zero_clean (k : nat) :
  Forall (fun e => ~ faulty_poll e) (repeat (Readl RNG_SR 0) k).
Proof.
  apply Forall_forall. intros e He. apply repeat_spec in He. subst e.
  cbn. intros [_ F]. exact (fault_zero F).
Qed.

Lemma drained_stops_on_fault (wait : bool) (len data rv : Z) (evs : list event) (rv' : Z) :
  drained wait len data rv evs rv' ->
  forall suf : list event,
    Forall (fun e => ~ faulty_poll e) suf ->
    stops_on_fault (Warn :: suf) (evs ++ suf).
Proof.
  induction 1 as [ | ? ? ? ? ? Hp | ? ? ? ? ? ? Hp ? | ? ? ? ? ? ? ? ? ? Hp ? ? ? IH ];
    intros suf Hsuf.
  - apply stops_on_fault_clean. assumption.
  - apply stops_on_fault_clean. apply Forall_app. split; [|assumption].
    destruct (polled_last _ _ _ Hp) as (k & -> & _).
    apply Forall_app. split; [apply repeat_zero_clean|].
    constructor; [|constructor]. cbn. intros [_ F]. exact (fault_zero F).
  - destruct (polled_last _ _ _ Hp) as (k & -> & _).
    rewrite <- !app_assoc. apply stops_on_fault_app; [apply repeat_zero_clean|].
    cbn. split; [reflexivity|]. split; [intros []|].
    apply stops_on_fault_clean. assumption.
  - destruct (polled_last _ _ _ Hp) as (k & -> & _).
    rewrite <- !app_assoc. apply stops_on_fault_app; [apply repeat_zero_clean|].
    cbn. split; [intros [_ F]; contradiction|].
    split; [intros [F _]; discriminate F|].
    split; [intros []|].
    apply IH. assumption.
Qed.

Lemma zeros_polls (k : nat) :
  filter is_poll (repeat (Readl RNG_SR 0) k) = repeat (Readl RNG_SR 0) k.
Proof.
  induction k as [|k IHk]; [reflexivity|].
  cbn [repeat filter is_poll]. rewrite Z.eqb_refl, IHk. reflexivity.
Qed.

Lemma zeros_data_reads (k : nat) :
  filter is_data_read (repeat (Readl RNG_SR 0) k) = [].
Proof.
  induction k as [|k IHk]; [reflexivity|].
  cbn [repeat filter is_data_read]. rewrite IHk. reflexivity.
Qed.

Lemma polled_length (wait : bool) (sr : Z) (ps : list event) :
  polled wait sr ps ->
  status_polls ps = length ps /\ data_reads ps = 0%nat /\
  (length ps <= S (Z.to_nat RNG_TIMEOUT))%nat /\
  (sr = 0 -> wait = true -> length ps = S (Z.to_nat RNG_TIMEOUT)).
Proof.
  intros Hp. destruct (polled_last _ _ _ Hp) as (k & -> & Hk & Hz).
  unfold status_polls, data_reads.
  rewrite !filter_app, !length_app, zeros_polls, zeros_data_reads, !repeat_length.
  cbn [filter is_poll is_data_read]. rewrite Z.eqb_refl.
  split; [reflexivity|]. split; [reflexivity|]. cbn [length].
  split; [lia|].
  intros. rewrite Hz by assumption. lia.
Qed.

(** The loop makes at most [RNG_TIMEOUT + 3] accesses for each word of the
    request. *)
Lemma drained_length (wait : bool) (len data rv : Z) (evs : list event) (rv' : Z) :
  drained wait len data rv evs rv' ->
  Z.of_nat (length evs) <= (RNG_TIMEOUT + 3) * Z.max 0 (len / sizeof_u32).
Proof.
  unfold RNG_TIMEOUT, sizeof_u32.
  induction 1 as [ | ? ? ? ? ? Hp | ? ? ? ? ? ? Hp ? | ? ? ? ? ? ? ? ? ? Hp ? ? ? IH ];
    try (pose proof (polled_length _ _ _ Hp) as (_ & _ & Hl & _);
         unfold RNG_TIMEOUT, sizeof_u32 in * );
    rewrite ?length_app; cbn [length];
    Z.div_mod_to_equations; lia.
Qed.

Lemma status_polls_app (a b : list event) :
  status_polls (a ++ b) = (status_polls a + status_polls b)%nat.
Proof. unfold status_polls. rewrite filter_app, length_app. reflexivity. Qed.

Lemma data_reads_app (a b : list event) :
  data_reads (a ++ b) = (data_reads a + data_reads b)%nat.
Proof. unfold data_reads. rewrite filter_app, length_app. reflexivity. Qed.

Lemma polled_in (wait : bool) (sr : Z) (ps : list event) :
  polled wait sr ps -> In (Readl RNG_SR sr) ps.
Proof.
  intros Hp. destruct (polled_last _ _ _ Hp) as (k & -> & _).
  apply in_or_app. right. left. reflexivity.
Qed.

(** While every snapshot is quiet the loop stores nothing, reads no data and
    gives up within one budget. *)
Lemma drained_quiet (wait : bool) (len data rv : Z) (evs : list event) (rv' : Z) :
  drained wait len data rv evs rv' ->
  (forall sr, In (Readl RNG_SR sr) evs -> quiet sr) ->
  rv' = rv /\ stored evs = [] /\ data_reads evs = 0%nat /\
  (status_polls evs <= S (Z.to_nat RNG_TIMEOUT))%nat.
Proof.
  intros Hd Hq. destruct Hd as [ | ? ? ? ? ? Hp | ? ? ? ? ? ? Hp ? | ? ? ? ? ? ? ? ? ? Hp Hz Hf ? ].
  - cbn. repeat split; lia.
  - pose proof (polled_length _ _ _ Hp) as (Hs & Hr & Hl & _).
    forget_polls ps.
    repeat split; auto; lia.
  - pose proof (polled_length _ _ _ Hp) as (Hs & Hr & Hl & _).
    forget_polls ps.
    rewrite status_polls_app, data_reads_app, Hr, Hs.
    change (status_polls [Warn]) with 0%nat. change (data_reads [Warn]) with 0%nat.
    repeat split; auto; lia.
  - exfalso. destruct (Hq sr) as [E | F]; [|contradiction..].
    apply in_or_app. left. eapply polled_in; eassumption.
Qed.

(** A waiting loop that only ever reads an all-zero status spends the whole
    budget: the first poll and [RNG_TIMEOUT] more. *)
Lemma drained_idle (len data rv : Z) (evs : list event) (rv' : Z) :
  drained true len data rv evs rv' ->
  len > sizeof_u32 ->
  (forall sr, In (Readl RNG_SR sr) evs -> sr = 0) ->
  status_polls evs = S (Z.to_nat RNG_TIMEOUT).
Proof.
  intros Hd Hlen Hq. destruct Hd as [ | ? ? ? ? ? Hp | ? ? ? ? ? ? Hp Hf | ? ? ? ? ? ? ? ? ? Hp Hz Hf ? ].
  - lia.
  - pose proof (polled_length _ _ _ Hp) as (Hs & _ & _ & Hl).
    rewrite Hs. apply Hl; reflexivity.
  - exfalso. rewrite (Hq sr) in Hf; [exact (fault_zero Hf)|].
    apply in_or_app. left. eapply polled_in; eassumption.
  - exfalso. apply Hz, Hq.
    apply in_or_app. left. eapply polled_in; eassumption.
Qed.

Lemma never_ready_quiet (sr : Z) :
  Z.land sr RNG_SR_DRDY = 0 -> defined_flags sr -> quiet sr.
Proof.
  unfold defined_flags, quiet, fault.
  generalize (Z.lor RNG_SR_SEIS RNG_SR_CEIS). intros errs Hd Hu.
  assert (E : sr = Z.land sr errs).
  { rewrite <- (Z.land_m1_r sr) at 1.
    rewrite <- (Z.lor_lnot_diag (Z.lor RNG_SR_DRDY errs)).
    rewrite !Z.land_lor_distr_r, Hu, Hd, Z.lor_0_l, Z.lor_0_r. reflexivity. }
  destruct (Z.eq_dec (Z.land sr errs) 0) as [Z0 | NZ].
  - left. congruence.
  - right. assumption.
Qed.

Lemma reads_gated_clean (prev : event) (a : list event) :
  Forall (fun e => is_data_read e = false) a -> reads_gated prev a.
Proof.
  intros Ha. revert prev. induction Ha as [|e a He _ IH]; intros prev; [exact I|].
  cbn. split; [intros T; congruence | apply IH].
Qed.

Lemma reads_gated_skip (prev x : event) (a b : list event) :
  Forall (fun e => is_data_read e = false) a ->
  is_data_read x = false ->
  reads_gated x b ->
  reads_gated prev (a ++ x :: b).
Proof.
  intros Ha Hx Hb. revert prev. induction Ha as [|e a He _ IH]; intros prev.
  - cbn. split; [intros T; congruence | assumption].
  - cbn. split; [intros T; congruence | apply IH].
Qed.

Lemma reads_gated_app (prev : event) (a b : list event) :
  reads_gated prev a ->
  Forall (fun e => is_data_read e = false) b ->
  reads_gated prev (a ++ b).
Proof.
  revert prev. induction a as [|e a IH]; intros prev Ha Hb.
  - apply reads_gated_clean. assumption.
  - cbn in *. destruct Ha as [He Ha]. split; [assumption | apply IH; assumption].
Qed.

Lemma reads_gated_split (prev : event) (evs pre post : list event) (e : event) :
  reads_gated prev evs ->
  evs = pre ++ e :: post ->
  is_data_read e = true ->
  exists sr, sr <> 0 /\ ~ fault sr /\
    ((pre = [] /\ prev = Readl RNG_SR sr) \/
     exists pre', pre = pre' ++ [Readl RNG_SR sr]).
Proof.
  revert prev evs. induction pre as [|x pre IH]; intros prev evs Hg -> He.
  - cbn in Hg. destruct Hg as [Hg _]. destruct (Hg He) as (sr & -> & Hz & Hf).
    exists sr. auto.
  - cbn in Hg. destruct Hg as [_ Hg].
    destruct (IH x _ Hg eq_refl He) as (sr & Hz & Hf & [[-> ->] | [pre' ->]]);
      exists sr; split; [assumption | split; [assumption|] | assumption | split; [assumption|]];
      right.
    + exists []. reflexivity.
    + exists (x :: pre'). reflexivity.
Qed.

Lemma zeros_not_data (k : nat) :
  Forall (fun e => is_data_read e = false) (repeat (Readl RNG_SR 0) k).
Proof.
  apply Forall_forall. intros e He. apply repeat_spec in He. subst e. reflexivity.
Qed.

Lemma drained_reads_gated (wait : bool) (len data rv : Z) (evs : list event) (rv' : Z) :
  drained wait len data rv evs rv' ->
  forall prev : event, reads_gated prev evs.
Proof.
  induction 1 as [ | ? ? ? ? ? Hp | ? ? ? ? ? ? Hp ? | ? ? ? ? ? ? ? ? ? Hp Hz Hf ? IH ];
    intros prev.
  - exact I.
  - destruct (polled_last _ _ _ Hp) as (k & -> & _).
    apply reads_gated_skip; [apply zeros_not_data | reflexivity | exact I].
  - destruct (polled_last _ _ _ Hp) as (k & -> & _).
    rewrite <- app_assoc.
    apply reads_gated_skip; [apply zeros_not_data | reflexivity |].
    cbn. split; [intros T; discriminate T | exact I].
  - destruct (polled_last _ _ _ Hp) as (k & -> & _).
    rewrite <- app_assoc.
    apply reads_gated_skip; [apply zeros_not_data | reflexivity |].
    cbn. split; [intros _; exists sr; auto|].
    split; [intros T; discriminate T | apply IH].
Qed.

(** Without fault bits and with only the defined flags, a non-zero status
    has Data-Ready set. *)
Lemma defined_nonzero_ready (sr : Z) :
  sr <> 0 -> ~ fault sr -> defined_flags sr -> Z.land sr RNG_SR_DRDY = RNG_SR_DRDY.
Proof.
  unfold defined_flags, fault.
  generalize (Z.lor RNG_SR_SEIS RNG_SR_CEIS). intros errs Hz Hf Hu.
  assert (Hf' : Z.land sr errs = 0) by (destruct (Z.eq_dec (Z.land sr errs) 0); tauto).
  assert (E : sr = Z.land sr RNG_SR_DRDY).
  { rewrite <- (Z.land_m1_r sr) at 1.
    rewrite <- (Z.lor_lnot_diag (Z.lor RNG_SR_DRDY errs)).
    rewrite !Z.land_lor_distr_r, Hu, Hf', !Z.lor_0_r. reflexivity. }
  change RNG_SR_DRDY with (Z.ones 1) in *.
  rewrite Z.land_ones in * by lia.
  change (2 ^ 1) with 2 in *.
  pose proof (Z.mod_pos_bound sr 2 ltac:(lia)). change (Z.ones 1) with 1. lia.
Qed.

Lemma store_u32_inside (addr v : Z) (m : Z -> Z) (a : Z) :
  addr <= a < addr + sizeof_u32 -> store_u32 addr v m a = byte_of v (a - addr).
Proof.
  intros Ha. unfold store_u32.
  destruct (Z.leb_spec addr a); destruct (Z.ltb_spec a (addr + sizeof_u32));
    cbn; try reflexivity; lia.
Qed.

(** A word stored is the word loaded. *)
Lemma load_store_u32 (addr v : Z) (m : Z -> Z) :
  0 <= v < 2 ^ 32 -> load_u32 (store_u32 addr v m) addr = v.
Proof.
  intros Hv. unfold load_u32.
  rewrite !store_u32_inside by (unfold sizeof_u32; lia).
  replace (addr - addr) with 0 by lia.
  replace (addr + 1 - addr) with 1 by lia.
  replace (addr + 2 - addr) with 2 by lia.
  replace (addr + 3 - addr) with 3 by lia.
  unfold byte_of. change 255 with (Z.ones 8).
  rewrite !Z.land_ones, !Z.shiftr_div_pow2 by lia.
  change (2 ^ (8 * 0)) with 1. change (2 ^ (8 * 1)) with 256.
  change (2 ^ (8 * 2)) with 65536. change (2 ^ (8 * 3)) with 16777216.
  change (2 ^ 8) with 256. change (2 ^ 16) with 65536. change (2 ^ 24) with 16777216.
  change (2 ^ 32) with 4294967296 in Hv.
  Z.div_mod_to_equations. lia.
Qed.

(** ** What each step of the driver does to the world *)

Section Steps.

Context {hw : Type} `{Peripheral hw}.

Lemma readl_run (off : Z) (w : world hw) :
  let v := u32_of (fst (mmio_read off (dev w))) in
  fst (readl off w) = v /\
  log (snd (readl off w)) = log w ++ [Readl off v] /\
  clock (snd (readl off w)) = clock w /\
  ram (snd (readl off w)) = ram w.
Proof.
  unfold readl. destruct (mmio_read off (dev w)) as [v d]. cbn. auto.
Qed.

Lemma readl_presented (off : Z) (w : world hw) :
  presented (Readl off (fst (readl off w))).
Proof.
  destruct (readl_run off w) as [-> _]. cbn. exists (dev w). reflexivity.
Qed.

Lemma readl_range (off : Z) (w : world hw) : 0 <= fst (readl off w) < 2 ^ 32.
Proof. destruct (readl_run off w) as [-> _]. apply u32_of_range. Qed.

(** The busy-wait entered with a budget of [t] polls the status register
    at most [t] times, and all polls but the last read zero. *)
Lemma busy_wait_run (t : Z) (w : world hw) :
  1 <= t < 2 ^ 32 ->
  exists n : nat,
    (n < Z.to_nat t)%nat /\
    (fst (busy_wait t w) <> 0 \/ S n = Z.to_nat t) /\
    log (snd (busy_wait t w)) =
      log w ++ repeat (Readl RNG_SR 0) n ++ [Readl RNG_SR (fst (busy_wait t w))] /\
    clock (snd (busy_wait t w)) = clock w /\
    ram (snd (busy_wait t w)) = ram w /\
    presented (Readl RNG_SR (fst (busy_wait t w))) /\
    0 <= fst (busy_wait t w) < 2 ^ 32.
Proof.
  funelim (busy_wait t w); intros Ht;
    pose proof (readl_run RNG_SR w) as (Hv & Hl & Hc & Hr);
    pose proof (readl_presented RNG_SR w) as Hp;
    pose proof (readl_range RNG_SR w) as Hb;
    match goal with
    | Hq : bind _ _ _ = (_, _) |- _ =>
        unfold bind, cpu_relax, ret in Hq;
        rewrite Hq in Hv, Hl, Hc, Hr, Hp, Hb
    end; cbn [fst snd] in *; rewrite <- Hv in Hl.
  - exists 0%nat. cbn [repeat app fst snd]. repeat split; auto; lia.
  - exists 0%nat. cbn [repeat app fst snd]. subst sr.
    assert (timeout = 1).
    { match goal with
      | Hz : u32_of (timeout - 1) = 0 |- _ => pose proof Hz as Hz'
      end.
      rewrite u32_of_small in Hz' by lia. lia. }
    subst timeout. repeat split; auto; lia.
  - assert (Hu : u32_of (timeout - 1) = timeout - 1).
    { apply u32_of_small. lia. }
    rewrite Hu in *.
    match goal with
    | IH : _ -> exists _, _ |- _ =>
        destruct IH as (n' & Hn & Hlast & Hl' & Hc' & Hr' & Hp' & Hb'); [lia|]
    end.
    exists (S n'). subst sr.
    split; [lia|].
    split; [destruct Hlast; [left; assumption | right; lia]|].
    split; [rewrite Hl', Hl; cbn [repeat]; rewrite <- !app_assoc; reflexivity|].
    split; [congruence|].
    split; [congruence|].
    split; assumption.
Qed.

Lemma snapshot_run (wait : bool) (w : world hw) :
  exists ps : list event,
    polled wait (fst (snapshot wait w)) ps /\
    log (snd (snapshot wait w)) = log w ++ ps /\
    clock (snd (snapshot wait w)) = clock w /\
    ram (snd (snapshot wait w)) = ram w /\
    Forall presented ps /\
    0 <= fst (snapshot wait w) < 2 ^ 32.
Proof.
  unfold snapshot, bind.
  pose proof (readl_run RNG_SR w) as (Hv & Hl & Hc & Hr).
  pose proof (readl_presented RNG_SR w) as Hp.
  pose proof (readl_range RNG_SR w) as Hb.
  destruct (readl RNG_SR w) as [sr w1]. cbn [fst snd] in *. rewrite <- Hv in Hl.
  clear Hv.
  destruct (Z.eqb_spec sr 0) as [Hz|Hz]; destruct wait; cbn [andb ret fst snd].
  - destruct (busy_wait_run RNG_TIMEOUT w1) as (n & Hn & Hlast & Hl' & Hc' & Hr' & Hp' & Hb').
    { unfold RNG_TIMEOUT. lia. }
    exists (Readl RNG_SR 0 :: repeat (Readl RNG_SR 0) n ++ [Readl RNG_SR (fst (busy_wait RNG_TIMEOUT w1))]).
    subst sr.
    split; [apply polled_wait; auto|].
    split; [rewrite Hl', Hl, <- app_assoc; reflexivity|].
    split; [congruence|].
    split; [congruence|].
    split; [|assumption].
    constructor; [assumption|].
    apply Forall_app. split; [|constructor; [assumption|constructor]].
    apply Forall_forall. intros e He. apply repeat_spec in He. subst e. assumption.
  - exists [Readl RNG_SR sr]. repeat split; auto; try lia.
    apply polled_once. right. reflexivity.
  - exists [Readl RNG_SR sr]. repeat split; auto; try lia.
    apply polled_once. left. assumption.
  - exists [Readl RNG_SR sr]. repeat split; auto; try lia.
    apply polled_once. left. assumption.
Qed.

Lemma fault_dec (sr : Z) :
  (Z.land sr (Z.lor RNG_SR_SEIS RNG_SR_CEIS) =? 0) = false <-> fault sr.
Proof. unfold fault. rewrite Z.eqb_neq. reflexivity. Qed.

(** One pass through the loop body: it breaks on an empty or a faulty
    snapshot, and otherwise reads one data word and stores it at [data]. *)
Lemma drain_word_run (data : Z) (wait : bool) (w : world hw) :
  exists (sr : Z) (ps : list event),
    polled wait sr ps /\ Forall presented ps /\
    clock (snd (drain_word data wait w)) = clock w /\
    match fst (drain_word data wait w) with
    | LoopBreak =>
        ram (snd (drain_word data wait w)) = ram w /\
        ((sr = 0 /\ log (snd (drain_word data wait w)) = log w ++ ps) \/
         (fault sr /\ log (snd (drain_word data wait w)) = log w ++ ps ++ [Warn]))
    | LoopNext =>
        sr <> 0 /\ ~ fault sr /\
        exists v : Z,
          presented (Readl RNG_DR v) /\
          log (snd (drain_word data wait w)) =
            log w ++ ps ++ [Readl RNG_DR v; Store32 data v] /\
          ram (snd (drain_word data wait w)) = store_u32 data v (ram w)
    end.
Proof.
  unfold drain_word, bind.
  destruct (snapshot_run wait w) as (ps & Hps & Hl & Hc & Hr & Hp & Hb).
  destruct (snapshot wait w) as [sr w1]. cbn [fst snd] in *.
  exists sr, ps. split; [assumption|]. split; [assumption|].
  unfold WARN_ON.
  destruct (Z.land sr (Z.lor RNG_SR_SEIS RNG_SR_CEIS) =? 0) eqn:Hf.
  - destruct (Z.eqb_spec sr 0) as [Hz|Hz]; cbn [ret fst snd].
    + auto.
    + pose proof (readl_run RNG_DR w1) as (Hv & Hl' & Hc' & Hr').
      pose proof (readl_presented RNG_DR w1) as Hp'.
      destruct (readl RNG_DR w1) as [v w2].
      unfold poke_u32, ret. cbn [fst snd clock ram log] in *.
      rewrite <- Hv in Hl'.
      split; [congruence|].
      split; [assumption|].
      split; [apply Z.eqb_eq in Hf; unfold fault; lia|].
      exists v. split; [assumption|].
      split; [rewrite Hl', Hl, <- !app_assoc; reflexivity|].
      rewrite Hr', Hr. reflexivity.
  - cbn [ret fst snd emit clock ram log].
    split; [assumption|]. split; [assumption|].
    right. split; [apply fault_dec; assumption|].
    rewrite Hl, <- app_assoc. reflexivity.
Qed.

(** The loop follows the shape [drained], touches the clock not at all and
    memory only through the stores it records. *)
Lemma drain_drained (len data rv : Z) (wait : bool) (w : world hw) :
  exists evs : list event,
    log (snd (drain len data rv wait w)) = log w ++ evs /\
    drained wait len data rv evs (fst (drain len data rv wait w)) /\
    clock (snd (drain len data rv wait w)) = clock w /\
    ram (snd (drain len data rv wait w)) = replay evs (ram w) /\
    Forall presented evs.
Proof.
  funelim (drain len data rv wait w).
  - exists []. cbn [fst snd replay]. rewrite app_nil_r.
    repeat split; auto. apply drained_full. lia.
  - destruct (drain_word_run data wait w) as (sr & ps & Hps & Hp & Hc & Hrun).
    match goal with Hq : drain_word _ _ _ = _ |- _ => rewrite Hq in Hc, Hrun end.
    cbn [fst snd] in *.
    destruct Hrun as (Hr & [(Hz & Hl) | (Hf & Hl)]).
    + exists ps. subst sr.
      split; [assumption|].
      split; [apply drained_empty; assumption|].
      split; [assumption|].
      split; [|assumption].
      rewrite (polls_replay ps) by (eapply polled_polls; eassumption). assumption.
    + exists (ps ++ [Warn]).
      split; [assumption|].
      split; [eapply drained_fault; eassumption|].
      split; [assumption|].
      split; [|apply Forall_app; split; [assumption | repeat constructor]].
      rewrite replay_app. cbn [replay].
      rewrite (polls_replay ps) by (eapply polled_polls; eassumption).
      assumption.
  - destruct (drain_word_run data wait w) as (sr & ps & Hps & Hp & Hc & Hrun).
    match goal with Hq : drain_word _ _ _ = _ |- _ => rewrite Hq in Hc, Hrun end.
    cbn [fst snd] in *.
    destruct Hrun as (Hz & Hf & v & Hv & Hl & Hr).
    match goal with
    | IH : exists _, _ |- _ => destruct IH as (evs & Hl' & Hd & Hc' & Hr' & Hp')
    end.
    exists (ps ++ Readl RNG_DR v :: Store32 data v :: evs).
    split; [rewrite Hl', Hl, <- !app_assoc; reflexivity|].
    split; [apply drained_word with (sr := sr); assumption|].
    split; [congruence|].
    split.
    + rewrite Hr', Hr, replay_app. cbn [replay].
      rewrite (polls_replay ps) by (eapply polled_polls; eassumption).
      reflexivity.
    + apply Forall_app. split; [assumption|].
      constructor; [assumption|]. constructor; [exact I | assumption].
Qed.

Lemma RNGEN_u32 : u32_of RNG_CR_RNGEN = RNG_CR_RNGEN.
Proof. reflexivity. Qed.

(** The whole of [stm32_rng_read]: acquire, the loop, release, and the
    result computed from the loop's [retval]. *)
Lemma stm32_rng_read_run (data max : Z) (wait : bool) (w : world hw) :
  let res := stm32_rng_read data max wait w in
  let cr := u32_of (fst (mmio_read RNG_CR (dev w))) in
  exists (evs : list event) (rv : Z),
    drained wait max data 0 evs rv /\
    Forall presented evs /\
    fst res = read_result rv wait /\
    emitted w (snd res) =
      [ClkEnable; Readl RNG_CR cr; Writel (Z.lor cr RNG_CR_RNGEN) RNG_CR]
        ++ evs ++ [Writel cr RNG_CR; ClkDisable] /\
    clock (snd res) = clock w /\
    ram (snd res) = replay evs (ram w).
Proof.
  cbv zeta.
  remember (stm32_rng_read data max wait w) as res eqn:Eres.
  unfold stm32_rng_read, bind, clk_enable, writel, clk_disable, ret in Eres.
  match type of Eres with
  | context [readl RNG_CR ?w1] =>
      pose proof (readl_run RNG_CR w1) as (Hv & Hl & Hc & Hr);
      destruct (readl RNG_CR w1) as [cr w2]
  end.
  cbn [fst snd dev log clock ram] in Hv, Hl, Hc, Hr.
  assert (Ecr : u32_of cr = cr) by (rewrite Hv; apply u32_of_idem).
  rewrite <- Hv in *. clear Hv.
  match type of Eres with
  | context [drain max data 0 wait ?w3] =>
      destruct (drain_drained max data 0 wait w3) as (evs & Hl' & Hd & Hc' & Hr' & Hp);
      destruct (drain max data 0 wait w3) as [rv w4]
  end.
  cbn [fst snd dev log clock ram] in Hl', Hd, Hc', Hr'.
  subst res. cbn [fst snd log clock ram dev].
  exists evs, rv.
  split; [assumption|]. split; [assumption|]. split; [reflexivity|].
  split; [|split].
  - apply emitted_app. rewrite Hl', Hl.
    rewrite u32_of_lor, Ecr, RNGEN_u32. rewrite <- !app_assoc. reflexivity.
  - rewrite Hc', Hc. destruct (clock w). reflexivity.
  - rewrite Hr', Hr. reflexivity.
Qed.

End Steps.

(** ** The record of a call to [stm32_rng_read], as a whole *)

Lemma stored_call (a : list event) (cr v c : Z) :
  stored ([ClkEnable; Readl RNG_CR cr; Writel v RNG_CR] ++ a ++ [Writel c RNG_CR; ClkDisable])
  = stored a.
Proof. cbn. rewrite stored_app. cbn. apply app_nil_r. Qed.

Lemma replay_call (a : list event) (cr v c : Z) (m : Z -> Z) :
  replay ([ClkEnable; Readl RNG_CR cr; Writel v RNG_CR] ++ a ++ [Writel c RNG_CR; ClkDisable]) m
  = replay a m.
Proof. cbn. rewrite replay_app. reflexivity. Qed.

(** ** The claims about [stm32_rng_read] *)

(** C1. Every call of [stm32_rng_read], however its loop ends, finishes by
    writing to the control register the very value it read from it when it
    began and then disabling the clock: the record of the call is the three
    acquire steps, then status reads, data reads, stores and warnings only,
    then that write and the clock disable; the clock is left as it was. *)
Theorem read_releases_on_every_path {hw : Type} `{Peripheral hw}
    (data max : Z) (wait : bool) (w : world hw) :
  let res := stm32_rng_read data max wait w in
  let cr := u32_of (fst (mmio_read RNG_CR (dev w))) in
  exists mid : list event,
    emitted w (snd res) =
      [ClkEnable; Readl RNG_CR cr; Writel (Z.lor cr RNG_CR_RNGEN) RNG_CR]
        ++ mid ++ [Writel cr RNG_CR; ClkDisable] /\
    Forall loop_event mid /\
    clock (snd res) = clock w.
Proof.
  cbv zeta.
  destruct (stm32_rng_read_run data max wait w) as (evs & rv & Hd & _ & _ & He & Hc & _).
  exists evs. split; [exact He|]. split; [|exact Hc].
  eapply drained_loop_events. eassumption.
Qed.

Lemma bytes_written_call {hw : Type} `{Peripheral hw}
    (data max : Z) (wait : bool) (w : world hw) :
  let res := stm32_rng_read data max wait w in
  let n := bytes_written (emitted w (snd res)) in
  fst res = read_result (int_of n) wait /\ 0 <= n /\ (n = 0 \/ n < max).
Proof.
  cbv zeta.
  destruct (stm32_rng_read_run data max wait w) as (evs & rv & Hd & _ & Hres & He & _ & _).
  rewrite He, Hres. unfold bytes_written. rewrite stored_call.
  pose proof (drained_retval _ _ _ _ _ _ Hd eq_refl) as Hrv.
  pose proof (drained_stored _ _ _ _ _ _ Hd) as [_ Hb].
  unfold bytes_written in *. cbn [Z.add] in Hrv.
  split; [rewrite Hrv; reflexivity|].
  split; [unfold sizeof_u32; lia|].
  destruct Hb as [-> | Hb]; [left; reflexivity | right; assumption].
Qed.

(** C2. The result of [stm32_rng_read] follows the three cases of line 96 on
    the byte count the call accumulated (four for each stored word, kept in
    an [int]): a positive count is the result; a zero count gives 0 to a
    caller that does not wait and [-EIO] to one that does.  For a request of
    at most [INT_MAX] bytes the [int] holds the count exactly. *)
Theorem read_result_policy {hw : Type} `{Peripheral hw}
    (data max : Z) (wait : bool) (w : world hw) :
  let res := stm32_rng_read data max wait w in
  let n := bytes_written (emitted w (snd res)) in
  let acc := int_of n in
  (0 < acc -> fst res = acc) /\
  (acc = 0 -> wait = false -> fst res = 0) /\
  (acc = 0 -> wait = true -> fst res = - EIO) /\
  (max <= INT_MAX -> acc = n).
Proof.
  cbv zeta.
  destruct (bytes_written_call data max wait w) as (Hres & Hn & Hb).
  rewrite Hres. unfold read_result.
  split; [|split; [|split]].
  - intros Hacc. destruct (Z.eqb_spec (int_of (bytes_written (emitted w (snd (stm32_rng_read data max wait w))))) 0);
      [lia | reflexivity].
  - intros -> ->. reflexivity.
  - intros -> ->. reflexivity.
  - intros Hmax. apply int_of_small. unfold INT_MAX in Hmax. lia.
Qed.

(** C2 at work: every poll ready, 16 bytes asked for, 12 counted and returned. *)
Lemma read_result_policy_witness :
  let res := stm32_rng_read 0 16 true (fresh always_ready) in
  let acc := int_of (bytes_written (emitted (fresh always_ready) (snd res))) in
  0 < acc /\ fst res = acc /\ acc = 12.
Proof.
  cbv zeta.
  assert (Hpos : 0 < int_of (bytes_written (emitted (fresh always_ready)
                   (snd (stm32_rng_read 0 16 true (fresh always_ready)))))).
  { vm_compute. reflexivity. }
  split; [exact Hpos|].
  split; [exact (proj1 (read_result_policy 0 16 true (fresh always_ready)) Hpos)|].
  vm_compute. reflexivity.
Defined.

(** C3. A request for exactly four bytes is never served: [max > sizeof(u32)]
    is false at [max = 4], so the loop is not entered.  Whatever the
    peripheral presents, a waiting caller gets [-EIO], the status and data
    registers are not read and memory is untouched.  So it is against a
    peripheral that reports Data-Ready on every poll, which serves a request
    for five bytes: that call returns 4 and leaves in the first word of the
    buffer the word the data register presented. *)
Theorem read_four_bytes_unserved :
  (forall (hw : Type) (P : Peripheral hw) (data : Z) (w : world hw),
      let res := stm32_rng_read data 4 true w in
      let cr := u32_of (fst (mmio_read RNG_CR (dev w))) in
      fst res = - EIO /\
      emitted w (snd res) =
        [ClkEnable; Readl RNG_CR cr; Writel (Z.lor cr RNG_CR_RNGEN) RNG_CR;
         Writel cr RNG_CR; ClkDisable] /\
      ram (snd res) = ram w) /\
  (let res := stm32_rng_read 0 4 true (fresh always_ready) in
   fst (mmio_read RNG_SR always_ready) = RNG_SR_DRDY /\
   fst res = - EIO /\
   status_polls (emitted (fresh always_ready) (snd res)) = 0%nat /\
   load_u32 (ram (snd res)) 0 = 0) /\
  (let res := stm32_rng_read 0 5 true (fresh always_ready) in
   fst res = 4 /\
   load_u32 (ram (snd res)) 0 = fst (mmio_read RNG_DR always_ready)).
Proof.
  split; [|split].
  - intros hw P data w. cbv zeta.
    destruct (stm32_rng_read_run data 4 true w) as (evs & rv & Hd & _ & Hres & He & _ & Hr).
    inversion Hd; subst; try (unfold sizeof_u32 in *; lia).
    rewrite Hres, He, Hr. repeat split.
  - vm_compute. repeat split.
  - vm_compute. repeat split.
Qed.

(** C4. A call with [0 <= max] stores at most [4 * (max / 4)] bytes; memory
    changes only through the word stores the record shows, which go to the
    consecutive slots [data], [data + 4], ...; every byte below [data] or at
    or beyond [data + 4 * (max / 4)] keeps its value. *)
Theorem read_fills_whole_words {hw : Type} `{Peripheral hw}
    (data max : Z) (wait : bool) (w : world hw) :
  0 <= max ->
  let res := stm32_rng_read data max wait w in
  let evs := emitted w (snd res) in
  bytes_written evs <= sizeof_u32 * (max / sizeof_u32) /\
  map fst (stored evs) = word_slots data (length (stored evs)) /\
  ram (snd res) = replay evs (ram w) /\
  (forall a : Z,
      a < data \/ data + sizeof_u32 * (max / sizeof_u32) <= a ->
      ram (snd res) a = ram w a).
Proof.
  intros Hmax. cbv zeta.
  destruct (stm32_rng_read_run data max wait w) as (evs & rv & Hd & _ & _ & He & _ & Hr).
  rewrite He, Hr. unfold bytes_written. rewrite stored_call, replay_call.
  pose proof (drained_stored _ _ _ _ _ _ Hd) as [Hslots Hb].
  assert (Hle : sizeof_u32 * Z.of_nat (length (stored evs)) <= sizeof_u32 * (max / sizeof_u32)).
  { unfold bytes_written, sizeof_u32 in *.
    destruct Hb as [-> | Hb]; cbn [length Z.of_nat]; Z.div_mod_to_equations; lia. }
  split; [exact Hle|]. split; [exact Hslots|]. split; [reflexivity|].
  intros a Ha. apply replay_other. rewrite Hslots.
  apply Forall_forall. intros s Hs. apply word_slots_range in Hs.
  unfold sizeof_u32 in *. lia.
Qed.

(** C4 at work: a request for 10 bytes at address 100 fills two words and
    leaves the byte at 108 alone. *)
Lemma read_fills_whole_words_witness :
  let res := stm32_rng_read 100 10 true (fresh always_ready) in
  0 <= 10 /\
  bytes_written (emitted (fresh always_ready) (snd res)) <= sizeof_u32 * (10 / sizeof_u32) /\
  stored (emitted (fresh always_ready) (snd res)) = [(100, 11); (104, 22)] /\
  ram (snd res) 108 = 0.
Proof.
  cbv zeta.
  assert (Hmax : 0 <= 10) by lia.
  split; [exact Hmax|].
  split; [exact (proj1 (read_fills_whole_words 100 10 true (fresh always_ready) Hmax))|].
  split; vm_compute; reflexivity.
Defined.

(** C8. The acquire step of [stm32_rng_read] is a read-modify-write of the
    control register: after enabling the clock it reads the register and
    writes back that value with [RNG_CR_RNGEN] or-ed in, so bit 2 is set and
    every other bit is written as it was read. *)
Theorem read_enables_by_read_modify_write {hw : Type} `{Peripheral hw}
    (data max : Z) (wait : bool) (w : world hw) :
  let res := stm32_rng_read data max wait w in
  let cr := u32_of (fst (mmio_read RNG_CR (dev w))) in
  firstn 3 (emitted w (snd res)) =
    [ClkEnable; Readl RNG_CR cr; Writel (Z.lor cr RNG_CR_RNGEN) RNG_CR] /\
  forall i : Z,
    Z.testbit (Z.lor cr RNG_CR_RNGEN) i = Z.testbit cr i || (i =? 2).
Proof.
  cbv zeta.
  destruct (stm32_rng_read_run data max wait w) as (evs & rv & _ & _ & _ & He & _ & _).
  rewrite He. split; [reflexivity|].
  intros i. rewrite Z.lor_spec. f_equal.
  change RNG_CR_RNGEN with (2 ^ 2). rewrite Z.pow2_bits_eqb by lia.
  apply Z.eqb_sym.
Qed.

Lemma acquire_clean (cr v : Z) :
  Forall (fun e => ~ faulty_poll e) [ClkEnable; Readl RNG_CR cr; Writel v RNG_CR].
Proof.
  repeat constructor; cbn; try tauto.
  intros [E _]. discriminate E.
Qed.

Lemma release_clean (cr : Z) :
  Forall (fun e => ~ faulty_poll e) [Writel cr RNG_CR; ClkDisable].
Proof. repeat constructor; cbn; tauto. Qed.

(** C5. When a status read of [stm32_rng_read] shows Seed-Error or
    Clock-Error, nothing follows it but the warning, the restoring write to
    the control register and the clock disable: in particular no read of the
    data register; the result is computed from the bytes stored before that
    read, so a positive count (of a request of at most [INT_MAX] bytes) is
    returned as it is.  Against a peripheral that presents two ready words
    and then Seed-Error, a waiting call for 16 bytes returns 8, reads the
    data register twice and leaves the third word unread. *)
Theorem read_stops_on_fault :
  (forall (hw : Type) (P : Peripheral hw) (data max : Z) (wait : bool) (w : world hw)
          (pre post : list event) (sr : Z),
      let res := stm32_rng_read data max wait w in
      let cr := u32_of (fst (mmio_read RNG_CR (dev w))) in
      emitted w (snd res) = pre ++ Readl RNG_SR sr :: post ->
      fault sr ->
      post = [Warn; Writel cr RNG_CR; ClkDisable] /\
      data_reads post = 0%nat /\
      fst res = read_result (int_of (bytes_written pre)) wait /\
      (0 < bytes_written pre -> max <= INT_MAX -> fst res = bytes_written pre)) /\
  (let res := stm32_rng_read 0 16 true (fresh seed_error_after_two) in
   fst res = 8 /\
   data_reads (emitted (fresh seed_error_after_two) (snd res)) = 2%nat /\
   sim_data (dev (snd res)) = [33] /\
   emitted (fresh seed_error_after_two) (snd res) =
     [ClkEnable; Readl RNG_CR 0; Writel RNG_CR_RNGEN RNG_CR;
      Readl RNG_SR RNG_SR_DRDY; Readl RNG_DR 11; Store32 0 11;
      Readl RNG_SR RNG_SR_DRDY; Readl RNG_DR 22; Store32 4 22;
      Readl RNG_SR RNG_SR_SEIS; Warn;
      Writel 0 RNG_CR; ClkDisable]).
Proof.
  split.
  - intros hw P data max wait w pre post sr. cbv zeta. intros He Hf.
    destruct (stm32_rng_read_run data max wait w) as (evs & rv & Hd & _ & _ & He' & _ & _).
    pose proof (bytes_written_call data max wait w) as (Hres & Hn & Hb).
    cbv zeta in Hres, Hn, Hb.
    assert (Hpost : post = [Warn; Writel (u32_of (fst (mmio_read RNG_CR (dev w)))) RNG_CR;
                            ClkDisable]).
    { eapply stops_on_fault_split with (e := Readl RNG_SR sr).
      - apply stops_on_fault_app; [apply acquire_clean|].
        eapply drained_stops_on_fault; [eassumption | apply release_clean].
      - rewrite <- He'. exact He.
      - split; [reflexivity | assumption]. }
    assert (Hbytes : bytes_written (emitted w (snd (stm32_rng_read data max wait w)))
                     = bytes_written pre).
    { rewrite He, Hpost. unfold bytes_written. rewrite stored_app. cbn.
      rewrite app_nil_r. reflexivity. }
    rewrite Hbytes in Hres, Hn, Hb.
    split; [exact Hpost|].
    split; [rewrite Hpost; reflexivity|].
    split; [exact Hres|].
    intros Hpos Hmax. rewrite Hres, int_of_small by (unfold INT_MAX in Hmax; lia).
    unfold read_result.
    destruct (Z.eqb_spec (bytes_written pre) 0); [lia | reflexivity].
  - vm_compute. repeat split.
Qed.

(** C5 at work on the peripheral of its second part: the record splits at the
    Seed-Error snapshot, after which only the release follows. *)
Lemma read_stops_on_fault_witness :
  let w := fresh seed_error_after_two in
  let res := stm32_rng_read 0 16 true w in
  let pre :=
    [ClkEnable; Readl RNG_CR 0; Writel RNG_CR_RNGEN RNG_CR;
     Readl RNG_SR RNG_SR_DRDY; Readl RNG_DR 11; Store32 0 11;
     Readl RNG_SR RNG_SR_DRDY; Readl RNG_DR 22; Store32 4 22] in
  fault RNG_SR_SEIS /\
  0 < bytes_written pre /\
  16 <= INT_MAX /\
  skipn 10 (emitted w (snd res)) = [Warn; Writel 0 RNG_CR; ClkDisable] /\
  fst res = bytes_written pre.
Proof.
  cbv zeta.
  assert (Hf : fault RNG_SR_SEIS) by (vm_compute; discriminate).
  assert (Hpos : 0 < bytes_written
                   [ClkEnable; Readl RNG_CR 0; Writel RNG_CR_RNGEN RNG_CR;
                    Readl RNG_SR RNG_SR_DRDY; Readl RNG_DR 11; Store32 0 11;
                    Readl RNG_SR RNG_SR_DRDY; Readl RNG_DR 22; Store32 4 22])
    by (vm_compute; reflexivity).
  assert (Hmax : 16 <= INT_MAX) by (vm_compute; discriminate).
  assert (He : emitted (fresh seed_error_after_two)
                 (snd (stm32_rng_read 0 16 true (fresh seed_error_after_two)))
               = [ClkEnable; Readl RNG_CR 0; Writel RNG_CR_RNGEN RNG_CR;
                  Readl RNG_SR RNG_SR_DRDY; Readl RNG_DR 11; Store32 0 11;
                  Readl RNG_SR RNG_SR_DRDY; Readl RNG_DR 22; Store32 4 22]
                 ++ Readl RNG_SR RNG_SR_SEIS :: skipn 10 (emitted (fresh seed_error_after_two)
                      (snd (stm32_rng_read 0 16 true (fresh seed_error_after_two)))))
    by (vm_compute; reflexivity).
  pose proof (proj1 read_stops_on_fault sim sim_rng 0 16 true (fresh seed_error_after_two)
                _ _ _ He Hf) as (Hpost & _ & _ & Hret).
  split; [exact Hf|]. split; [exact Hpos|]. split; [exact Hmax|].
  split; [exact Hpost | exact (Hret Hpos Hmax)].
Defined.

Lemma stored_nil_replay (evs : list event) (m : Z -> Z) :
  stored evs = [] -> replay evs m = m.
Proof.
  revert m. induction evs as [|e evs IH]; intros m Hs; [reflexivity|].
  destruct e; cbn in *; try discriminate; apply IH; assumption.
Qed.

Lemma status_polls_call (a : list event) (cr v c : Z) :
  status_polls ([ClkEnable; Readl RNG_CR cr; Writel v RNG_CR] ++ a ++ [Writel c RNG_CR; ClkDisable])
  = status_polls a.
Proof.
  rewrite !status_polls_app. change (status_polls [Writel c RNG_CR; ClkDisable]) with 0%nat.
  change (status_polls [ClkEnable; Readl RNG_CR cr; Writel v RNG_CR]) with 0%nat. lia.
Qed.

Lemma data_reads_call (a : list event) (cr v c : Z) :
  data_reads ([ClkEnable; Readl RNG_CR cr; Writel v RNG_CR] ++ a ++ [Writel c RNG_CR; ClkDisable])
  = data_reads a.
Proof.
  rewrite !data_reads_app. change (data_reads [Writel c RNG_CR; ClkDisable]) with 0%nat.
  change (data_reads [ClkEnable; Readl RNG_CR cr; Writel v RNG_CR]) with 0%nat. lia.
Qed.

Lemma presented_status {hw : Type} `{Peripheral hw} (evs : list event) (Q : Z -> Prop) :
  (forall s : hw, Q (u32_of (fst (mmio_read RNG_SR s)))) ->
  Forall presented evs ->
  forall sr, In (Readl RNG_SR sr) evs -> Q sr.
Proof.
  intros HQ Hp sr Hin. rewrite Forall_forall in Hp.
  destruct (Hp _ Hin) as [s ->]. apply HQ.
Qed.

(** C6, as the driver has it.  [stm32_rng_read] returns after a bounded
    number of operations whatever the peripheral does: at most
    [RNG_TIMEOUT + 3] for each word of the request and five around the loop.
    The busy-wait reads the status register at most [RNG_TIMEOUT] = 500
    times.  A waiting call against a peripheral whose status carries only the
    three defined flags and never Data-Ready returns [-EIO], stores nothing,
    reads no data and polls at most [1 + RNG_TIMEOUT] times; when the status
    always reads zero and more than four bytes are requested it polls exactly
    [1 + RNG_TIMEOUT] times: the whole budget. *)
Theorem read_terminates_within_budget :
  (forall (hw : Type) (P : Peripheral hw) (data max : Z) (wait : bool) (w : world hw),
      Z.of_nat (length (emitted w (snd (stm32_rng_read data max wait w))))
      <= 5 + (RNG_TIMEOUT + 3) * Z.max 0 (max / sizeof_u32)) /\
  (forall (hw : Type) (P : Peripheral hw) (w : world hw),
      let evs := emitted w (snd (busy_wait RNG_TIMEOUT w)) in
      status_polls evs = length evs /\ (length evs <= Z.to_nat RNG_TIMEOUT)%nat) /\
  (forall (hw : Type) (P : Peripheral hw) (data max : Z) (w : world hw),
      never_ready hw ->
      let res := stm32_rng_read data max true w in
      let evs := emitted w (snd res) in
      fst res = - EIO /\
      bytes_written evs = 0 /\
      data_reads evs = 0%nat /\
      ram (snd res) = ram w /\
      (status_polls evs <= S (Z.to_nat RNG_TIMEOUT))%nat) /\
  (forall (hw : Type) (P : Peripheral hw) (data max : Z) (w : world hw),
      always_idle hw ->
      max > sizeof_u32 ->
      status_polls (emitted w (snd (stm32_rng_read data max true w)))
      = S (Z.to_nat RNG_TIMEOUT)).
Proof.
  split; [|split; [|split]].
  - intros hw P data max wait w.
    destruct (stm32_rng_read_run data max wait w) as (evs & rv & Hd & _ & _ & He & _ & _).
    rewrite He. pose proof (drained_length _ _ _ _ _ _ Hd) as Hl.
    rewrite !length_app. cbn [length]. lia.
  - intros hw P w. cbv zeta.
    destruct (busy_wait_run RNG_TIMEOUT w) as (n & Hn & _ & Hl & _).
    { unfold RNG_TIMEOUT. lia. }
    rewrite (emitted_app _ _ _ Hl).
    rewrite status_polls_app. unfold status_polls at 1. rewrite zeros_polls.
    rewrite length_app, repeat_length.
    change (status_polls [Readl RNG_SR (fst (busy_wait RNG_TIMEOUT w))]) with 1%nat.
    cbn [length]. lia.
  - intros hw P data max w Hnr. cbv zeta.
    destruct (stm32_rng_read_run data max true w) as (evs & rv & Hd & Hp & Hres & He & _ & Hr).
    assert (Hq : forall sr, In (Readl RNG_SR sr) evs -> quiet sr).
    { apply presented_status; [|assumption].
      intros s. destruct (Hnr s). apply never_ready_quiet; assumption. }
    destruct (drained_quiet _ _ _ _ _ _ Hd Hq) as (-> & Hs & Hdr & Hsp).
    rewrite He, Hres, Hr. unfold bytes_written.
    rewrite stored_call, data_reads_call, status_polls_call, Hs.
    split; [reflexivity|]. split; [reflexivity|]. split; [assumption|].
    split; [apply stored_nil_replay; assumption | assumption].
  - intros hw P data max w Hidle Hmax.
    destruct (stm32_rng_read_run data max true w) as (evs & rv & Hd & Hp & _ & He & _ & _).
    rewrite He, status_polls_call.
    eapply drained_idle; [eassumption | assumption |].
    apply presented_status; assumption.
Qed.

(** C6 at work: a status register stuck at zero. *)
Lemma read_terminates_within_budget_witness :
  let P := stuck 0 0 in
  let res := @stm32_rng_read unit P 0 16 true (fresh tt) in
  @never_ready unit P /\
  @always_idle unit P /\
  16 > sizeof_u32 /\
  fst res = - EIO /\
  status_polls (emitted (fresh tt) (snd res)) = 501%nat.
Proof.
  cbv zeta.
  assert (Hnr : @never_ready unit (stuck 0 0)) by (intros s; split; reflexivity).
  assert (Hid : @always_idle unit (stuck 0 0)) by (intros s; reflexivity).
  assert (Hmax : 16 > sizeof_u32) by reflexivity.
  destruct read_terminates_within_budget as (_ & _ & Hquiet & Hidle).
  split; [exact Hnr|]. split; [exact Hid|]. split; [exact Hmax|].
  split.
  - exact (proj1 (Hquiet unit (stuck 0 0) 0 16 (fresh tt) Hnr)).
  - exact (Hidle unit (stuck 0 0) 0 16 (fresh tt) Hid Hmax).
Defined.

(** C6, as it is stated, fails.  The peripheral below never reports
    Data-Ready and raises Seed-Error: a waiting call for 16 bytes ends at its
    first status read, with the budget of [RNG_TIMEOUT] polls unspent. *)
Lemma read_fault_leaves_budget_unspent :
  let P := stuck RNG_SR_SEIS 0 in
  let res := @stm32_rng_read unit P 0 16 true (fresh tt) in
  (forall s : unit, Z.land (u32_of (fst (@mmio_read unit P RNG_SR s))) RNG_SR_DRDY = 0) /\
  fst res = - EIO /\
  emitted (fresh tt) (snd res) =
    [ClkEnable; Readl RNG_CR 0; Writel RNG_CR_RNGEN RNG_CR;
     Readl RNG_SR RNG_SR_SEIS; Warn;
     Writel 0 RNG_CR; ClkDisable] /\
  status_polls (emitted (fresh tt) (snd res)) = 1%nat /\
  ~ (Z.to_nat RNG_TIMEOUT <= status_polls (emitted (fresh tt) (snd res)))%nat.
Proof.
  cbv zeta.
  split; [intros s; reflexivity|].
  split; [vm_compute; reflexivity|].
  split; [vm_compute; reflexivity|].
  split; [vm_compute; reflexivity|].
  vm_compute. intros Hle. repeat apply le_S_n in Hle. inversion Hle.
Qed.

(** C7. The loop never looks at the Data-Ready bit: it takes any non-zero
    status without Seed-Error and Clock-Error for a ready word.  Against a
    peripheral whose status register reads 2 (bit 0 clear, no fault bit) a
    call for eight bytes reads the data register right after that snapshot,
    stores the word and reports four bytes.  What does hold of every call:
    each read of the data register comes straight after a status read of a
    non-zero snapshot without fault bits, and such a snapshot has Data-Ready
    set when it carries no bit besides the three defined flags. *)
Theorem read_takes_stray_status_for_data :
  (let P := stuck 2 0 in
   let res := @stm32_rng_read unit P 0 8 false (fresh tt) in
   Z.land 2 RNG_SR_DRDY = 0 /\
   ~ fault 2 /\
   emitted (fresh tt) (snd res) =
     [ClkEnable; Readl RNG_CR 0; Writel RNG_CR_RNGEN RNG_CR;
      Readl RNG_SR 2; Readl RNG_DR 0; Store32 0 0;
      Writel 0 RNG_CR; ClkDisable] /\
   fst res = 4) /\
  (forall (hw : Type) (P : Peripheral hw) (data max : Z) (wait : bool) (w : world hw)
          (pre post : list event) (v : Z),
      emitted w (snd (stm32_rng_read data max wait w)) = pre ++ Readl RNG_DR v :: post ->
      exists (pre' : list event) (sr : Z),
        pre = pre' ++ [Readl RNG_SR sr] /\
        sr <> 0 /\ ~ fault sr /\
        (defined_flags sr -> Z.land sr RNG_SR_DRDY = RNG_SR_DRDY)).
Proof.
  split.
  - cbv zeta. split; [reflexivity|]. split; [intros F; apply F; reflexivity|].
    split; vm_compute; reflexivity.
  - intros hw P data max wait w pre post v He.
    destruct (stm32_rng_read_run data max wait w) as (evs & rv & Hd & _ & _ & He' & _ & _).
    rewrite He' in He. cbv zeta in He.
    assert (Hg : reads_gated ClkEnable
                   ([ClkEnable; Readl RNG_CR (u32_of (fst (mmio_read RNG_CR (dev w))));
                     Writel (Z.lor (u32_of (fst (mmio_read RNG_CR (dev w)))) RNG_CR_RNGEN) RNG_CR]
                    ++ evs ++ [Writel (u32_of (fst (mmio_read RNG_CR (dev w)))) RNG_CR;
                               ClkDisable])).
    { apply (reads_gated_skip ClkEnable (Writel _ RNG_CR) [ClkEnable; Readl RNG_CR _]).
      - repeat constructor.
      - reflexivity.
      - apply reads_gated_app; [|repeat constructor].
        eapply drained_reads_gated. eassumption. }
    destruct (reads_gated_split _ _ _ _ _ Hg He eq_refl)
      as (sr & Hz & Hf & [[_ Habs] | [pre' ->]]); [discriminate Habs|].
    exists pre', sr. split; [reflexivity|]. split; [assumption|]. split; [assumption|].
    apply defined_nonzero_ready; assumption.
Qed.

(** ** The claims about [stm32_rng_init] and [stm32_rng_cleanup] *)

Lemma stm32_rng_init_run {hw : Type} `{Peripheral hw} (w : world hw) :
  let res := stm32_rng_init w in
  let err := prepare_errno (clock w) in
  let sr := u32_of (fst (mmio_read RNG_SR (dev w))) in
  (err = 0 ->
   fst res = 0 /\
   emitted w (snd res) =
     [ClkPrepare 0; Readl RNG_SR sr;
      Writel (Z.land sr (Z.lnot (Z.lor RNG_SR_SEIS RNG_SR_CEIS))) RNG_SR] /\
   clock (snd res) =
     Clk (S (prepare_count (clock w))) (enable_count (clock w)) (prepare_errno (clock w))) /\
  (err <> 0 ->
   fst res = err /\ emitted w (snd res) = [ClkPrepare err] /\
   dev (snd res) = dev w /\ clock (snd res) = clock w).
Proof.
  cbv zeta. unfold stm32_rng_init, bind, clk_prepare.
  destruct (Z.eqb_spec (prepare_errno (clock w)) 0) as [E | E]; cbn [negb].
  - split; [intros _ | intros N; contradiction].
    match goal with
    | |- context [readl RNG_SR ?w1] =>
        pose proof (readl_run RNG_SR w1) as (Hv & Hl & Hc & Hr);
        destruct (readl RNG_SR w1) as [sr w2]
    end.
    cbn [fst snd dev log clock ram] in Hv, Hl, Hc, Hr.
    unfold writel, ret. cbn [fst snd dev log clock ram].
    split; [reflexivity|]. split; [|exact Hc].
    apply emitted_app. cbn [log]. rewrite Hl, Hv, u32_of_land, E, <- !app_assoc. reflexivity.
  - split; [intros Z0; contradiction | intros _].
    unfold ret. cbn [fst snd dev log clock ram].
    split; [reflexivity|]. split; [|split; reflexivity].
    apply emitted_app. reflexivity.
Qed.

(** C9. After an [stm32_rng_init] that succeeded and the [stm32_rng_cleanup]
    that follows it, with no read in between, the clock is as it was before:
    a clock that was not prepared is not prepared afterwards.  The two calls
    prepare once, read and write the status register, and unprepare once. *)
Theorem init_then_cleanup_unprepares {hw : Type} `{Peripheral hw} (w : world hw) :
  fst (stm32_rng_init w) = 0 ->
  let w' := snd (stm32_rng_cleanup (snd (stm32_rng_init w))) in
  clock w' = clock w /\
  (prepared (clock w) = false -> prepared (clock w') = false) /\
  exists sr v : Z,
    emitted w w' = [ClkPrepare 0; Readl RNG_SR sr; Writel v RNG_SR; ClkUnprepare].
Proof.
  intros Hok. cbv zeta.
  destruct (stm32_rng_init_run w) as [Hgood Hbad]. cbv zeta in Hgood, Hbad.
  destruct (Z.eq_dec (prepare_errno (clock w)) 0) as [E | E].
  - destruct (Hgood E) as (_ & He & Hc).
    unfold stm32_rng_cleanup, clk_unprepare. cbn [fst snd clock log].
    assert (Hclk : Clk (Nat.pred (prepare_count (clock (snd (stm32_rng_init w)))))
                       (enable_count (clock (snd (stm32_rng_init w))))
                       (prepare_errno (clock (snd (stm32_rng_init w)))) = clock w).
    { rewrite Hc. cbn. destruct (clock w). reflexivity. }
    split; [exact Hclk|]. split; [rewrite Hclk; auto|].
    eexists _, _. apply emitted_app.
    unfold emitted in He.
    assert (Hlog : log (snd (stm32_rng_init w)) =
                   log w ++ emitted w (snd (stm32_rng_init w))).
    { unfold stm32_rng_init, bind, clk_prepare, readl, writel, ret, emitted.
      destruct (negb (prepare_errno (clock w) =? 0));
        [|destruct (mmio_read RNG_SR _)]; cbn [fst snd log];
        rewrite <- ?app_assoc, skipn_app, skipn_all, Nat.sub_diag; reflexivity. }
    rewrite Hlog. unfold emitted. rewrite He, <- app_assoc. reflexivity.
  - destruct (Hbad E) as (Hres & _). congruence.
Qed.

(** C9 at work: a clock nobody has prepared. *)
Lemma init_then_cleanup_unprepares_witness :
  let w := World always_ready (Clk 0 0 0) zeroed [] in
  fst (stm32_rng_init w) = 0 /\
  prepared (clock w) = false /\
  prepared (clock (snd (stm32_rng_init w))) = true /\
  prepared (clock (snd (stm32_rng_cleanup (snd (stm32_rng_init w))))) = false.
Proof.
  cbv zeta.
  assert (Hok : fst (stm32_rng_init (World always_ready (Clk 0 0 0) zeroed [])) = 0)
    by reflexivity.
  split; [exact Hok|]. split; [reflexivity|]. split; [reflexivity|].
  exact (proj1 (proj2 (init_then_cleanup_unprepares _ Hok)) eq_refl).
Defined.

(** C10. When [stm32_rng_init] succeeds it has prepared the clock, read the
    status register once and written it once, and the value written is the
    value read with bits 6 (Seed-Error) and 5 (Clock-Error) cleared and every
    other bit unchanged.  When [clk_prepare] fails, [stm32_rng_init] returns
    its error and has touched no register. *)
Theorem init_clears_only_the_error_flags {hw : Type} `{Peripheral hw} (w : world hw) :
  let res := stm32_rng_init w in
  let sr := u32_of (fst (mmio_read RNG_SR (dev w))) in
  let cleared := Z.land sr (Z.lnot (Z.lor RNG_SR_SEIS RNG_SR_CEIS)) in
  (fst res = 0 ->
   emitted w (snd res) = [ClkPrepare 0; Readl RNG_SR sr; Writel cleared RNG_SR] /\
   forall i : Z,
     Z.testbit cleared i = Z.testbit sr i && negb ((i =? 6) || (i =? 5))) /\
  (prepare_errno (clock w) <> 0 ->
   fst res = prepare_errno (clock w) /\
   emitted w (snd res) = [ClkPrepare (prepare_errno (clock w))] /\
   dev (snd res) = dev w).
Proof.
  cbv zeta.
  destruct (stm32_rng_init_run w) as [Hgood Hbad]. cbv zeta in Hgood, Hbad.
  split.
  - intros Hok.
    destruct (Z.eq_dec (prepare_errno (clock w)) 0) as [E | E].
    + destruct (Hgood E) as (_ & He & _). split; [exact He|].
      intros i. rewrite Z.land_spec.
      destruct (Z.neg_nonneg_cases i) as [Hi | Hi].
      * rewrite !Z.testbit_neg_r by assumption. reflexivity.
      * rewrite Z.lnot_spec, Z.lor_spec by assumption.
        change RNG_SR_SEIS with (2 ^ 6). change RNG_SR_CEIS with (2 ^ 5).
        rewrite !Z.pow2_bits_eqb by lia.
        rewrite (Z.eqb_sym 6), (Z.eqb_sym 5). reflexivity.
    + destruct (Hbad E) as (Hres & _). congruence.
  - intros E. destruct (Hbad E) as (Hres & He & Hd & _). auto.
Qed.

(** C10 at work: a status of [0x61] is written back as [0x01]; a clock whose
    preparation fails with [-ENODEV] stops the initialisation. *)
Lemma init_clears_only_the_error_flags_witness :
  let w := World (Sim 0 [97] 0 []) gated_clk zeroed [] in
  let broken := World (Sim 0 [97] 0 []) (Clk 0 0 (-19)) zeroed [] in
  fst (stm32_rng_init w) = 0 /\
  emitted w (snd (stm32_rng_init w)) = [ClkPrepare 0; Readl RNG_SR 97; Writel 1 RNG_SR] /\
  prepare_errno (clock broken) <> 0 /\
  fst (stm32_rng_init broken) = -19 /\
  emitted broken (snd (stm32_rng_init broken)) = [ClkPrepare (-19)].
Proof.
  cbv zeta.
  assert (Hok : fst (stm32_rng_init (World (Sim 0 [97] 0 []) gated_clk zeroed [])) = 0)
    by reflexivity.
  assert (Hbad : prepare_errno (clock (World (Sim 0 [97] 0 []) (Clk 0 0 (-19)) zeroed [])) <> 0)
    by discriminate.
  split; [exact Hok|].
  split; [exact (proj1 (proj1 (init_clears_only_the_error_flags _) Hok))|].
  split; [exact Hbad|].
  destruct (proj2 (init_clears_only_the_error_flags _) Hbad) as (Hres & He & _).
  split; [exact Hres | exact He].
Defined.

(** ** Further properties of [stm32_rng_read] *)

Lemma data_values_app (a b : list event) :
  data_values (a ++ b) = data_values a ++ data_values b.
Proof.
  induction a as [|e a IH]; [reflexivity|].
  destruct e; cbn; rewrite ?IH; try reflexivity.
  destruct (off =? RNG_DR); cbn; rewrite ?IH; reflexivity.
Qed.

Lemma polls_data_values (ps : list event) :
  Forall (fun e => is_poll e = true) ps -> data_values ps = [].
Proof.
  induction 1 as [|e ps He _ IH]; [reflexivity|].
  destruct e; cbn in *; try discriminate.
  apply Z.eqb_eq in He. subst off. exact IH.
Qed.

Lemma polls_data_reads (ps : list event) :
  Forall (fun e => is_poll e = true) ps -> data_reads ps = 0%nat.
Proof.
  unfold data_reads. induction 1 as [|e ps He _ IH]; [reflexivity|].
  destruct e; cbn in *; try discriminate.
  apply Z.eqb_eq in He. subst off. exact IH.
Qed.

(** Every word read from the data register is stored, in the order read. *)
Lemma drained_data_values (wait : bool) (len data rv : Z) (evs : list event) (rv' : Z) :
  drained wait len data rv evs rv' ->
  map snd (stored evs) = data_values evs /\
  length (stored evs) = data_reads evs.
Proof.
  induction 1 as [ | ? ? ? ? ? Hp | ? ? ? ? ? ? Hp ? | ? ? ? ? ? ? ? ? ? Hp ? ? ? IH ];
    try (pose proof (polled_polls _ _ _ Hp) as Hps;
         rewrite ?stored_app, ?data_values_app, ?data_reads_app,
           (polls_stored _ Hps), (polls_data_values _ Hps), (polls_data_reads _ Hps)).
  - split; reflexivity.
  - split; reflexivity.
  - split; reflexivity.
  - destruct IH as [IHa IHb]. cbn [app stored data_values map snd length].
    change (RNG_DR =? RNG_DR) with true. cbn iota.
    change (data_reads (Readl RNG_DR v :: Store32 data v :: evs)) with (S (data_reads evs)).
    rewrite IHa, IHb. split; reflexivity.
Qed.

Lemma load_u32_ext (m m' : Z -> Z) (addr : Z) :
  (forall a, addr <= a < addr + sizeof_u32 -> m a = m' a) ->
  load_u32 m addr = load_u32 m' addr.
Proof.
  intros E. unfold load_u32.
  rewrite !E by (unfold sizeof_u32; lia). reflexivity.
Qed.

Lemma presented_range {hw : Type} `{Peripheral hw} (off v : Z) :
  presented (Readl off v) -> 0 <= v < 2 ^ 32.
Proof. intros [s ->]. apply u32_of_range. Qed.

(** After the loop the [i]-th word of the buffer is the [i]-th word read. *)
Lemma drained_loaded {hw : Type} `{Peripheral hw}
    (wait : bool) (len data rv : Z) (evs : list event) (rv' : Z) :
  drained wait len data rv evs rv' ->
  Forall presented evs ->
  forall (m : Z -> Z) (i : nat),
    (i < length (data_values evs))%nat ->
    load_u32 (replay evs m) (data + sizeof_u32 * Z.of_nat i) = nth i (data_values evs) 0.
Proof.
  induction 1 as [ | ? ? ? ? ? Hp | ? ? ? ? ? ? Hp ? | ? ? ? ? ? ? ? ? ? Hp ? ? Hd IH ];
    intros Hpres m i Hi;
    try (pose proof (polled_polls _ _ _ Hp) as Hps;
         rewrite ?data_values_app, (polls_data_values _ Hps) in Hi;
         rewrite ?data_values_app, (polls_data_values _ Hps)).
  - cbn in Hi. lia.
  - cbn in Hi. lia.
  - cbn in Hi. lia.
  - apply Forall_app in Hpres. destruct Hpres as [_ Hpres].
    inversion Hpres as [|? ? Hv Hpres']; subst.
    inversion Hpres' as [|? ? _ Hpres'']; subst.
    rewrite replay_app, (polls_replay ps) by assumption.
    cbn [app data_values replay] in *. change (RNG_DR =? RNG_DR) with true in *.
    cbn iota in *. cbn [length] in Hi.
    destruct i as [|j].
    + cbn [nth Z.of_nat]. rewrite Z.mul_0_r, Z.add_0_r.
      rewrite (load_u32_ext _ (store_u32 data v m)).
      * apply load_store_u32. eapply presented_range. eassumption.
      * intros a Ha. apply replay_other.
        destruct (drained_stored _ _ _ _ _ _ Hd) as [-> _].
        apply Forall_forall. intros s Hs. apply word_slots_range in Hs.
        unfold sizeof_u32 in *. lia.
    + cbn [nth].
      replace (data + sizeof_u32 * Z.of_nat (S j))
        with (data + sizeof_u32 + sizeof_u32 * Z.of_nat j) by (unfold sizeof_u32; lia).
      apply IH; [assumption | lia].
Qed.

Lemma data_values_call (a : list event) (cr v c : Z) :
  data_values ([ClkEnable; Readl RNG_CR cr; Writel v RNG_CR] ++ a ++ [Writel c RNG_CR; ClkDisable])
  = data_values a.
Proof. cbn. rewrite data_values_app. cbn. apply app_nil_r. Qed.

(** X1. What a caller of [stm32_rng_read] gets for a request of at most
    [INT_MAX] bytes: either [-EIO], and then it waited, no word was stored
    and memory is as before; or the number of bytes stored, which is a
    multiple of four, zero or below [max], and every byte outside
    [data, data + result) is as before.  A call that does not wait never
    fails. *)
Theorem read_contract {hw : Type} `{Peripheral hw}
    (data max : Z) (wait : bool) (w : world hw) :
  max <= INT_MAX ->
  let res := stm32_rng_read data max wait w in
  let n := bytes_written (emitted w (snd res)) in
  (fst res = - EIO /\ wait = true /\ n = 0 /\ ram (snd res) = ram w) \/
  (fst res = n /\ 0 <= n /\ (n = 0 \/ n < max) /\ n mod sizeof_u32 = 0 /\
   forall a : Z, a < data \/ data + n <= a -> ram (snd res) a = ram w a).
Proof.
  intros Hmax. cbv zeta.
  destruct (bytes_written_call data max wait w) as (Hres & Hn & Hb).
  cbv zeta in Hres, Hn, Hb.
  destruct (stm32_rng_read_run data max wait w) as (evs & rv & Hd & _ & _ & He & _ & Hr).
  cbv zeta in He.
  set (n := bytes_written (emitted w (snd (stm32_rng_read data max wait w)))) in *.
  assert (En : n = sizeof_u32 * Z.of_nat (length (stored evs))).
  { subst n. rewrite He. unfold bytes_written. rewrite stored_call. reflexivity. }
  rewrite int_of_small in Hres by (unfold INT_MAX in Hmax; lia).
  assert (Hframe : forall a : Z, a < data \/ data + n <= a -> ram (snd (stm32_rng_read data max wait w)) a = ram w a).
  { intros a Ha. rewrite Hr. apply replay_other.
    destruct (drained_stored _ _ _ _ _ _ Hd) as [-> _].
    apply Forall_forall. intros s Hs. apply word_slots_range in Hs. lia. }
  unfold read_result in Hres.
  destruct (Z.eqb_spec n 0) as [Z0 | NZ]; destruct wait; cbn [negb orb] in Hres.
  - left. split; [assumption|]. split; [reflexivity|]. split; [assumption|].
    rewrite Hr. apply stored_nil_replay.
    destruct (stored evs); [reflexivity|]. cbn [length] in En. unfold sizeof_u32 in En. lia.
  - right. split; [assumption|]. split; [assumption|]. split; [assumption|].
    split; [rewrite En, Z.mul_comm; apply Z.mod_mul; discriminate | assumption].
  - right. split; [assumption|]. split; [assumption|]. split; [assumption|].
    split; [rewrite En, Z.mul_comm; apply Z.mod_mul; discriminate | assumption].
  - right. split; [assumption|]. split; [assumption|]. split; [assumption|].
    split; [rewrite En, Z.mul_comm; apply Z.mod_mul; discriminate | assumption].
Qed.

(** X1 at work: two ready words, then Seed-Error, 16 bytes asked for. *)
Lemma read_contract_witness :
  let w := fresh seed_error_after_two in
  let res := stm32_rng_read 100 16 true w in
  16 <= INT_MAX /\
  fst res = 8 /\
  fst res = bytes_written (emitted w (snd res)) /\
  ram (snd res) 108 = 0.
Proof.
  cbv zeta.
  assert (Hmax : 16 <= INT_MAX) by (vm_compute; discriminate).
  split; [exact Hmax|].
  split; [vm_compute; reflexivity|].
  destruct (read_contract 100 16 true (fresh seed_error_after_two) Hmax)
    as [(Herr & _) | (Hres & _ & _ & _ & Hframe)].
  - vm_compute in Herr. discriminate Herr.
  - split; [exact Hres|]. vm_compute. reflexivity.
Defined.

(** X2. The buffer holds what the data register presented: the words stored
    by a call are the words it read from the data register, all of them and
    in the order read, and after the call the [i]-th word of the buffer
    (little-endian, at [data + 4 i]) is the [i]-th word read. *)
Theorem read_stores_the_words_read {hw : Type} `{Peripheral hw}
    (data max : Z) (wait : bool) (w : world hw) :
  let res := stm32_rng_read data max wait w in
  let evs := emitted w (snd res) in
  map snd (stored evs) = data_values evs /\
  length (data_values evs) = data_reads evs /\
  forall i : nat,
    (i < length (data_values evs))%nat ->
    load_u32 (ram (snd res)) (data + sizeof_u32 * Z.of_nat i) = nth i (data_values evs) 0.
Proof.
  cbv zeta.
  destruct (stm32_rng_read_run data max wait w) as (evs & rv & Hd & Hp & _ & He & _ & Hr).
  cbv zeta in He. rewrite He, Hr, stored_call, data_values_call, data_reads_call.
  destruct (drained_data_values _ _ _ _ _ _ Hd) as [Hv Hl].
  split; [exact Hv|]. split; [rewrite <- Hv, length_map; exact Hl|].
  intros i Hi. eapply drained_loaded; eassumption.
Qed.

(** X2 at work: the second word of the buffer. *)
Lemma read_stores_the_words_read_witness :
  let w := fresh always_ready in
  let res := stm32_rng_read 100 16 true w in
  data_values (emitted w (snd res)) = [11; 22; 33] /\
  load_u32 (ram (snd res)) (100 + sizeof_u32 * Z.of_nat 1) = 22.
Proof.
  cbv zeta. split; [vm_compute; reflexivity|].
  assert (Hi : (1 < length (data_values (emitted (fresh always_ready)
                   (snd (stm32_rng_read 100 16 true (fresh always_ready))))))%nat)
    by (vm_compute; repeat constructor).
  exact (proj2 (proj2 (read_stores_the_words_read 100 16 true (fresh always_ready))) 1%nat Hi).
Defined.


Lemma polled_single (wait : bool) (sr : Z) (ps : list event) :
  polled wait sr ps ->
  wait = false \/ ~ In (Readl RNG_SR 0) ps ->
  ps = [Readl RNG_SR sr].
Proof.
  intros [Hs | n Hw Hn Hl] Hone; [reflexivity|].
  destruct Hone as [Hf | Hnz]; [congruence|].
  exfalso. apply Hnz. left. reflexivity.
Qed.

(** When every snapshot is taken for a ready word the loop runs once for each
    word that leaves more than four bytes of the request, with one poll and
    one data read each time. *)
Lemma drained_ready (wait : bool) (len data rv : Z) (evs : list event) (rv' : Z) :
  drained wait len data rv evs rv' ->
  (forall sr, In (Readl RNG_SR sr) evs -> sr <> 0 /\ ~ fault sr) ->
  bytes_written evs = sizeof_u32 * Z.max 0 ((len - 1) / sizeof_u32) /\
  status_polls evs = data_reads evs.
Proof.
  unfold bytes_written.
  induction 1 as [ | ? ? ? ? ? Hp | ? ? ? ? ? ? Hp Hf | ? ? ? ? ? ? ? ? ? Hp Hz Hf Hd IH ];
    intros Hq.
  - split; [|reflexivity]. cbn [stored length Z.of_nat].
    unfold sizeof_u32 in *. Z.div_mod_to_equations. lia.
  - exfalso. destruct (Hq 0) as [Hz _]; [eapply polled_in; eassumption | congruence].
  - exfalso. destruct (Hq sr) as [_ Hnf];
      [apply in_or_app; left; eapply polled_in; eassumption | contradiction].
  - assert (Eps : ps = [Readl RNG_SR sr]).
    { apply (polled_single _ _ _ Hp). right. intros Hin.
      destruct (Hq 0) as [Hz0 _]; [apply in_or_app; left; assumption | congruence]. }
    subst ps.
    destruct IH as [IHa IHb].
    { intros sr' Hin. apply Hq. apply in_or_app. right. right. right. assumption. }
    cbn [app stored length].
    change (status_polls (Readl RNG_SR sr :: Readl RNG_DR v :: Store32 data v :: evs))
      with (S (status_polls evs)).
    change (data_reads (Readl RNG_SR sr :: Readl RNG_DR v :: Store32 data v :: evs))
      with (S (data_reads evs)).
    split; [|congruence].
    rewrite Nat2Z.inj_succ. unfold sizeof_u32 in *.
    Z.div_mod_to_equations. lia.
Qed.

(** X3. Against a peripheral whose every status snapshot is non-zero and free
    of faults, a call stores [4 * ((max - 1) / 4)] bytes (none for
    [max <= 0]), polling the status register exactly once for each word: the
    last four bytes of a request that is a positive multiple of four are
    never filled. *)
Theorem read_from_ready_peripheral {hw : Type} `{Peripheral hw}
    (data max : Z) (wait : bool) (w : world hw) :
  ever_ready hw ->
  let res := stm32_rng_read data max wait w in
  let evs := emitted w (snd res) in
  bytes_written evs = sizeof_u32 * Z.max 0 ((max - 1) / sizeof_u32) /\
  status_polls evs = data_reads evs /\
  data_reads evs = length (stored evs) /\
  (0 < max -> max mod sizeof_u32 = 0 -> bytes_written evs = max - sizeof_u32).
Proof.
  intros Hready. cbv zeta.
  destruct (stm32_rng_read_run data max wait w) as (evs & rv & Hd & Hp & _ & He & _ & _).
  cbv zeta in He. rewrite He. unfold bytes_written.
  rewrite stored_call, status_polls_call, data_reads_call.
  destruct (drained_ready _ _ _ _ _ _ Hd) as [Hb Hs].
  { apply presented_status; [exact Hready | assumption]. }
  destruct (drained_data_values _ _ _ _ _ _ Hd) as [_ Hl].
  unfold bytes_written in Hb.
  split; [exact Hb|]. split; [exact Hs|]. split; [congruence|].
  intros Hpos Hmod. rewrite Hb. unfold sizeof_u32 in *.
  Z.div_mod_to_equations. lia.
Qed.

(** X3 at work: a status register stuck at Data-Ready, twelve bytes asked. *)
Lemma read_from_ready_peripheral_witness :
  let P := stuck RNG_SR_DRDY 7 in
  let w := fresh tt in
  let res := @stm32_rng_read unit P 0 12 false w in
  @ever_ready unit P /\
  0 < 12 /\ 12 mod sizeof_u32 = 0 /\
  bytes_written (emitted w (snd res)) = 12 - sizeof_u32 /\
  fst res = 8.
Proof.
  cbv zeta.
  assert (Hready : @ever_ready unit (stuck RNG_SR_DRDY 7)).
  { intros s. split; [discriminate | intros F; apply F; reflexivity]. }
  assert (Hpos : 0 < 12) by reflexivity.
  assert (Hmod : 12 mod sizeof_u32 = 0) by reflexivity.
  split; [exact Hready|]. split; [exact Hpos|]. split; [exact Hmod|].
  split; [|vm_compute; reflexivity].
  exact (proj2 (proj2 (proj2
    (@read_from_ready_peripheral unit (stuck RNG_SR_DRDY 7) 0 12 false (fresh tt) Hready)))
    Hpos Hmod).
Defined.

(** Without waiting each pass polls the status register once. *)
Lemma drained_nonblocking (len data rv : Z) (evs : list event) (rv' : Z) :
  drained false len data rv evs rv' ->
  status_polls evs = data_reads evs \/ status_polls evs = S (data_reads evs).
Proof.
  induction 1 as [ | ? ? ? ? ? Hp | ? ? ? ? ? ? Hp Hf | ? ? ? ? ? ? ? ? ? Hp Hz Hf Hd IH ];
    try (rewrite (polled_single _ _ _ Hp) by (left; reflexivity)).
  - left. reflexivity.
  - right. reflexivity.
  - right. reflexivity.
  - cbn [app].
    change (status_polls (Readl RNG_SR sr :: Readl RNG_DR v :: Store32 data v :: evs))
      with (S (status_polls evs)).
    change (data_reads (Readl RNG_SR sr :: Readl RNG_DR v :: Store32 data v :: evs))
      with (S (data_reads evs)).
    destruct IH as [-> | ->]; [left | right]; reflexivity.
Qed.

(** X4. A call that does not wait never busy-polls: it reads the status
    register once for each word it delivers and at most once more; it never
    returns [-EIO].  When the status register reads zero and more than four
    bytes are asked for, it returns 0 after a single poll and leaves memory
    alone. *)
Theorem read_without_waiting :
  (forall (hw : Type) (P : Peripheral hw) (data max : Z) (w : world hw),
      let res := stm32_rng_read data max false w in
      let evs := emitted w (snd res) in
      (status_polls evs = data_reads evs \/ status_polls evs = S (data_reads evs)) /\
      fst res <> - EIO) /\
  (forall (hw : Type) (P : Peripheral hw) (data max : Z) (w : world hw),
      always_idle hw ->
      max > sizeof_u32 ->
      let res := stm32_rng_read data max false w in
      fst res = 0 /\
      status_polls (emitted w (snd res)) = 1%nat /\
      data_reads (emitted w (snd res)) = 0%nat /\
      ram (snd res) = ram w).
Proof.
  split.
  - intros hw P data max w. cbv zeta.
    destruct (stm32_rng_read_run data max false w) as (evs & rv & Hd & _ & _ & He & _ & _).
    destruct (bytes_written_call data max false w) as (Hres & _ & _).
    cbv zeta in He, Hres. rewrite Hres, He. clear Hres.
    unfold bytes_written. rewrite stored_call, status_polls_call, data_reads_call.
    split; [apply (drained_nonblocking _ _ _ _ _ Hd)|].
    unfold read_result. rewrite orb_true_r.
    unfold int_of, EIO, sizeof_u32.
    generalize (Z.of_nat (length (stored evs))). intros k.
    Z.div_mod_to_equations. lia.
  - intros hw P data max w Hidle Hmax. cbv zeta.
    destruct (stm32_rng_read_run data max false w) as (evs & rv & Hd & Hp & Hres & He & _ & Hr).
    cbv zeta in He. rewrite He, Hres, Hr, status_polls_call, data_reads_call.
    assert (Hz : forall sr, In (Readl RNG_SR sr) evs -> sr = 0)
      by (apply presented_status; assumption).
    assert (Hq : forall sr, In (Readl RNG_SR sr) evs -> quiet sr)
      by (intros sr Hin; left; auto).
    destruct (drained_quiet _ _ _ _ _ _ Hd Hq) as (-> & Hs & Hdr & _).
    split; [reflexivity|].
    split; [|split; [assumption | apply stored_nil_replay; assumption]].
    destruct (drained_nonblocking _ _ _ _ _ Hd) as [E | E]; rewrite E, Hdr; [|reflexivity].
    exfalso. rewrite Hdr in E.
    inversion Hd as [ ? ? ? Hle | ? ? ? ? ? Hpl | ? ? ? ? ? ? Hpl ? | ? ? ? ? ? ? ? ? ? Hpl ? ? ? ];
      subst.
    + lia.
    + rewrite (polled_single _ _ _ Hpl) in E by (left; reflexivity). discriminate E.
    + rewrite (polled_single _ _ _ Hpl) in E by (left; reflexivity). discriminate E.
    + rewrite (polled_single _ _ _ Hpl) in E by (left; reflexivity). discriminate E.
Qed.

(** X4 at work: a status register stuck at zero. *)
Lemma read_without_waiting_witness :
  let P := stuck 0 0 in
  let res := @stm32_rng_read unit P 0 16 false (fresh tt) in
  @always_idle unit P /\ 16 > sizeof_u32 /\
  fst res = 0 /\ status_polls (emitted (fresh tt) (snd res)) = 1%nat.
Proof.
  cbv zeta.
  assert (Hid : @always_idle unit (stuck 0 0)) by (intros s; reflexivity).
  assert (Hmax : 16 > sizeof_u32) by reflexivity.
  split; [exact Hid|]. split; [exact Hmax|].
  destruct (proj2 read_without_waiting unit (stuck 0 0) 0 16 (fresh tt) Hid Hmax)
    as (Hres & Hpolls & _).
  split; [exact Hres | exact Hpolls].
Defined.

(** X5. A request of at most four bytes never enters the loop: the call
    enables the clock, sets and restores the control register, disables the
    clock and touches neither the status register, nor the data register,
    nor memory; it returns 0 to a caller that does not wait and [-EIO] to one
    that does. *)
Theorem read_short_request {hw : Type} `{Peripheral hw}
    (data max : Z) (wait : bool) (w : world hw) :
  max <= sizeof_u32 ->
  let res := stm32_rng_read data max wait w in
  let cr := u32_of (fst (mmio_read RNG_CR (dev w))) in
  emitted w (snd res) =
    [ClkEnable; Readl RNG_CR cr; Writel (Z.lor cr RNG_CR_RNGEN) RNG_CR;
     Writel cr RNG_CR; ClkDisable] /\
  ram (snd res) = ram w /\
  fst res = if wait then - EIO else 0.
Proof.
  intros Hmax. cbv zeta.
  destruct (stm32_rng_read_run data max wait w) as (evs & rv & Hd & _ & Hres & He & _ & Hr).
  inversion Hd; subst; try lia.
  rewrite Hres, He, Hr. split; [reflexivity|]. split; [reflexivity|].
  destruct wait; reflexivity.
Qed.

(** X5 at work: nothing asked for, and the caller waits. *)
Lemma read_short_request_witness :
  let res := stm32_rng_read 0 0 true (fresh always_ready) in
  0 <= sizeof_u32 /\ fst res = - EIO /\
  status_polls (emitted (fresh always_ready) (snd res)) = 0%nat.
Proof.
  cbv zeta.
  assert (Hmax : 0 <= sizeof_u32) by (vm_compute; discriminate).
  split; [exact Hmax|].
  split; [|vm_compute; reflexivity].
  exact (proj2 (proj2 (read_short_request 0 0 true (fresh always_ready) Hmax))).
Defined.

Lemma warnings_app (a b : list event) :
  warnings (a ++ b) = (warnings a + warnings b)%nat.
Proof. unfold warnings. rewrite filter_app, length_app. reflexivity. Qed.

Lemma fault_polls_app (a b : list event) :
  fault_polls (a ++ b) = (fault_polls a + fault_polls b)%nat.
Proof. unfold fault_polls. rewrite filter_app, length_app. reflexivity. Qed.

Lemma zeros_no_fault (k : nat) :
  warnings (repeat (Readl RNG_SR 0) k) = 0%nat /\
  fault_polls (repeat (Readl RNG_SR 0) k) = 0%nat.
Proof.
  unfold warnings, fault_polls.
  induction k as [|k [IHw IHf]]; [split; reflexivity|].
  split; cbn [repeat filter is_warn shows_fault]; [exact IHw|].
  rewrite Z.land_0_l, Z.eqb_refl, andb_false_r. exact IHf.
Qed.

Lemma polled_faults (wait : bool) (sr : Z) (ps : list event) :
  polled wait sr ps ->
  warnings ps = 0%nat /\
  (fault sr -> fault_polls ps = 1%nat) /\
  (~ fault sr -> fault_polls ps = 0%nat).
Proof.
  intros Hp. destruct (polled_last _ _ _ Hp) as (k & -> & _).
  destruct (zeros_no_fault k) as [Hw Hf].
  rewrite warnings_app, fault_polls_app, Hw, Hf.
  unfold warnings, fault_polls. cbn [filter is_warn shows_fault]. rewrite Z.eqb_refl.
  split; [reflexivity|].
  split; intros F.
  - apply fault_dec in F. rewrite F. reflexivity.
  - destruct (Z.eqb_spec (Z.land sr (Z.lor RNG_SR_SEIS RNG_SR_CEIS)) 0) as [E | E];
      [reflexivity | contradiction].
Qed.

Lemma drained_warnings (wait : bool) (len data rv : Z) (evs : list event) (rv' : Z) :
  drained wait len data rv evs rv' ->
  warnings evs = fault_polls evs /\ (warnings evs <= 1)%nat.
Proof.
  induction 1 as [ | ? ? ? ? ? Hp | ? ? ? ? ? ? Hp Hf | ? ? ? ? ? ? ? ? ? Hp Hz Hf Hd IH ];
    try (destruct (polled_faults _ _ _ Hp) as (Hw & Hyes & Hno)).
  - split; [reflexivity | cbn; lia].
  - rewrite Hw, (Hno fault_zero). split; [reflexivity | lia].
  - rewrite warnings_app, fault_polls_app, Hw, (Hyes Hf).
    change (warnings [Warn]) with 1%nat. change (fault_polls [Warn]) with 0%nat.
    split; [reflexivity | lia].
  - rewrite warnings_app, fault_polls_app, Hw, (Hno Hf).
    change (warnings (Readl RNG_DR v :: Store32 data v :: evs)) with (warnings evs).
    change (fault_polls (Readl RNG_DR v :: Store32 data v :: evs)) with (fault_polls evs).
    exact IH.
Qed.

(** X6. A call warns exactly when a status read showed Seed-Error or
    Clock-Error: the number of warnings is the number of such reads, and
    there is at most one of either in a call. *)
Theorem read_warns_once_per_fault {hw : Type} `{Peripheral hw}
    (data max : Z) (wait : bool) (w : world hw) :
  let evs := emitted w (snd (stm32_rng_read data max wait w)) in
  warnings evs = fault_polls evs /\ (warnings evs <= 1)%nat.
Proof.
  cbv zeta.
  destruct (stm32_rng_read_run data max wait w) as (evs & rv & Hd & _ & _ & He & _ & _).
  cbv zeta in He. rewrite He.
  rewrite !warnings_app, !fault_polls_app.
  change (warnings [ClkEnable; Readl RNG_CR (u32_of (fst (mmio_read RNG_CR (dev w))));
                    Writel (Z.lor (u32_of (fst (mmio_read RNG_CR (dev w)))) RNG_CR_RNGEN) RNG_CR])
    with 0%nat.
  change (warnings [Writel (u32_of (fst (mmio_read RNG_CR (dev w)))) RNG_CR; ClkDisable])
    with 0%nat.
  change (fault_polls [ClkEnable; Readl RNG_CR (u32_of (fst (mmio_read RNG_CR (dev w))));
                    Writel (Z.lor (u32_of (fst (mmio_read RNG_CR (dev w)))) RNG_CR_RNGEN) RNG_CR])
    with 0%nat.
  change (fault_polls [Writel (u32_of (fst (mmio_read RNG_CR (dev w)))) RNG_CR; ClkDisable])
    with 0%nat.
  destruct (drained_warnings _ _ _ _ _ _ Hd) as [E L].
  rewrite !Nat.add_0_l, !Nat.add_0_r. split; assumption.
Qed.


(** ** The driver in use: facts *)

Lemma stm32_rng_read_log {hw : Type} `{Peripheral hw}
    (data max : Z) (wait : bool) (w : world hw) :
  log (snd (stm32_rng_read data max wait w))
  = log w ++ emitted w (snd (stm32_rng_read data max wait w)).
Proof.
  assert (Hex : exists evs, log (snd (stm32_rng_read data max wait w)) = log w ++ evs).
  { remember (stm32_rng_read data max wait w) as res eqn:Eres.
    unfold stm32_rng_read, bind, clk_enable, writel, clk_disable, ret in Eres.
    match type of Eres with
    | context [readl RNG_CR ?w1] =>
        pose proof (readl_run RNG_CR w1) as (_ & Hl & _ & _);
        destruct (readl RNG_CR w1) as [cr w2]
    end.
    cbn [fst snd dev log clock ram] in Hl.
    match type of Eres with
    | context [drain max data 0 wait ?w3] =>
        destruct (drain_drained max data 0 wait w3) as (evs & Hl' & _);
        destruct (drain max data 0 wait w3) as [rv w4]
    end.
    cbn [fst snd dev log clock ram] in Hl'.
    subst res. cbn [fst snd log]. rewrite Hl', Hl, <- !app_assoc.
    eexists. reflexivity. }
  destruct Hex as [evs Hl]. rewrite (emitted_app _ _ _ Hl). exact Hl.
Qed.

Lemma bracketed_loop (evs rest : list event) :
  Forall loop_event evs -> bracketed true rest -> bracketed true (evs ++ rest).
Proof.
  induction 1 as [|e evs He _ IH]; intros Hrest; [assumption|].
  destruct e; cbn in He; try contradiction; cbn; split; auto.
Qed.

(** The record of one call, followed by a bracketed record, is bracketed. *)
Lemma bracketed_read {hw : Type} `{Peripheral hw}
    (data max : Z) (wait : bool) (w : world hw) (rest : list event) :
  bracketed false rest ->
  bracketed false (emitted w (snd (stm32_rng_read data max wait w)) ++ rest).
Proof.
  intros Hrest.
  destruct (stm32_rng_read_run data max wait w) as (evs & rv & Hd & _ & _ & He & _ & _).
  cbv zeta in He. rewrite He. cbn [app bracketed].
  split; [reflexivity|]. split; [reflexivity|]. split; [reflexivity|].
  rewrite <- app_assoc. apply bracketed_loop; [eapply drained_loop_events; eassumption|].
  cbn [app bracketed]. split; [reflexivity|]. split; [reflexivity | assumption].
Qed.

Lemma read_all_run {hw : Type} `{Peripheral hw} (reqs : list (Z * Z * bool)) :
  forall w : world hw,
    exists evs : list event,
      log (snd (read_all reqs w)) = log w ++ evs /\
      bracketed false evs /\
      clock (snd (read_all reqs w)) = clock w /\
      length (fst (read_all reqs w)) = length reqs.
Proof.
  induction reqs as [|[[data len] wait] reqs IH]; intros w.
  - exists []. cbn. rewrite app_nil_r. auto.
  - cbn [read_all]. unfold bind.
    pose proof (stm32_rng_read_log data len wait w) as Hl.
    pose proof (bracketed_read data len wait w) as Hb.
    destruct (stm32_rng_read_run data len wait w) as (_ & _ & _ & _ & _ & _ & Hc & _).
    cbv zeta in Hc.
    destruct (stm32_rng_read data len wait w) as [r w1]. cbn [fst snd] in Hl, Hb, Hc.
    destruct (IH w1) as (evs & Hl' & Hb' & Hc' & Hn).
    destruct (read_all reqs w1) as [rs w2]. unfold ret. cbn [fst snd length] in *.
    exists (emitted w w1 ++ evs).
    split; [rewrite Hl', Hl, <- app_assoc; reflexivity|].
    split; [apply Hb; assumption|].
    split; [congruence | rewrite Hn; reflexivity].
Qed.

(** X7. The clock stays balanced over a whole use of the driver.  After an
    [init] that succeeded, any number of reads and [cleanup], the clock is as
    it was before [init] and every request got a result; the record is the
    prepare, the status read and write of [init], then the reads, in which
    the clock is switched on and off in turns and nothing is read, written or
    stored while it is off, then the unprepare.  When [clk_prepare] fails no
    read and no [cleanup] is made and the clock is as before. *)
Theorem session_keeps_clock_balanced {hw : Type} `{Peripheral hw}
    (reqs : list (Z * Z * bool)) (w : world hw) :
  let res := session reqs w in
  let err := prepare_errno (clock w) in
  (err = 0 ->
   fst (fst res) = 0 /\
   length (snd (fst res)) = length reqs /\
   clock (snd res) = clock w /\
   exists (sr v : Z) (mid : list event),
     emitted w (snd res) =
       ClkPrepare 0 :: Readl RNG_SR sr :: Writel v RNG_SR :: mid ++ [ClkUnprepare] /\
     bracketed false mid) /\
  (err <> 0 ->
   fst res = (err, []) /\
   emitted w (snd res) = [ClkPrepare err] /\
   clock (snd res) = clock w).
Proof.
  cbv zeta. unfold session, bind.
  destruct (stm32_rng_init_run w) as [Hgood Hbad]. cbv zeta in Hgood, Hbad.
  assert (Hlog : log (snd (stm32_rng_init w)) = log w ++ emitted w (snd (stm32_rng_init w))).
  { unfold stm32_rng_init, bind, clk_prepare, readl, writel, ret, emitted.
    destruct (negb (prepare_errno (clock w) =? 0));
      [|destruct (mmio_read RNG_SR _)]; cbn [fst snd log];
      rewrite <- ?app_assoc, skipn_app, skipn_all, Nat.sub_diag; reflexivity. }
  destruct (stm32_rng_init w) as [err w1]. cbn [fst snd] in *.
  split.
  - intros E. destruct (Hgood E) as (-> & He & Hc). cbn [negb Z.eqb].
    destruct (read_all_run reqs w1) as (mid & Hl' & Hb & Hc' & Hn).
    destruct (read_all reqs w1) as [rs w2]. cbn [fst snd] in *.
    unfold stm32_rng_cleanup, clk_unprepare, ret. cbn [fst snd clock log].
    split; [reflexivity|]. split; [assumption|].
    split; [rewrite Hc', Hc; cbn; destruct (clock w); reflexivity|].
    eexists _, _, mid. split; [|assumption].
    apply emitted_app. rewrite Hl', Hlog, He, <- !app_assoc. reflexivity.
  - intros E. destruct (Hbad E) as (-> & He & _ & Hc).
    destruct (Z.eqb_spec (prepare_errno (clock w)) 0) as [Z0 | _]; [contradiction|].
    cbn [negb ret fst snd]. auto.
Qed.

(** X7 at work: two reads between [init] and [cleanup]. *)
Lemma session_keeps_clock_balanced_witness :
  let w := World always_ready (Clk 0 0 0) zeroed [] in
  let res := session [(0, 8, true); (8, 12, false)] w in
  prepare_errno (clock w) = 0 /\
  fst res = (0, [4; 8]) /\
  clock (snd res) = clock w.
Proof.
  cbv zeta.
  assert (Hok : prepare_errno (clock (World always_ready (Clk 0 0 0) zeroed [])) = 0)
    by reflexivity.
  split; [exact Hok|]. split; [vm_compute; reflexivity|].
  exact (proj1 (proj2 (proj2 (proj1
    (session_keeps_clock_balanced [(0, 8, true); (8, 12, false)]
       (World always_ready (Clk 0 0 0) zeroed [])) Hok)))).
Defined.

(** ** The loops, unfolded once *)

Lemma busy_wait_step {hw : Type} `{Peripheral hw} (timeout : Z) (w : world hw) :
  busy_wait timeout w =
  let (sr, w1) := readl RNG_SR w in
  if sr =? 0
  then if u32_of (timeout - 1) =? 0 then (sr, w1) else busy_wait (u32_of (timeout - 1)) w1
  else (sr, w1).
Proof.
  funelim (busy_wait timeout w);
    match goal with
    | Hq : bind _ _ _ = (_, _) |- _ => unfold bind, cpu_relax, ret in Hq; rewrite Hq
    end; cbv beta iota;
    destruct (Z.eqb_spec sr 0); destruct (Z.eqb_spec (u32_of (timeout - 1)) 0);
    try reflexivity; try contradiction; congruence.
Qed.

Lemma drain_step {hw : Type} `{Peripheral hw}
    (len data retval : Z) (wait : bool) (w : world hw) :
  drain len data retval wait w =
  if len >? sizeof_u32
  then let (f, w1) := drain_word data wait w in
       match f with
       | LoopBreak => (retval, w1)
       | LoopNext => drain (len - sizeof_u32) (data + sizeof_u32)
                           (int_of (retval + sizeof_u32)) wait w1
       end
  else (retval, w).
Proof.
  funelim (drain len data retval wait w).
  - destruct (Z.gtb_spec len sizeof_u32); [lia | reflexivity].
  - destruct (Z.gtb_spec len sizeof_u32); [|lia].
    match goal with Hq : drain_word _ _ _ = _ |- _ => rewrite Hq end. reflexivity.
  - destruct (Z.gtb_spec len sizeof_u32); [|lia].
    match goal with Hq : drain_word _ _ _ = _ |- _ => rewrite Hq end. reflexivity.
Qed.

(** ** The timeout, met and missed *)

Lemma readl_eq {hw : Type} `{Peripheral hw} (off : Z) (w : world hw) :
  readl off w =
  (u32_of (fst (mmio_read off (dev w))),
   World (snd (mmio_read off (dev w))) (clock w) (ram w)
         (log w ++ [Readl off (u32_of (fst (mmio_read off (dev w))))])).
Proof. unfold readl. destruct (mmio_read off (dev w)). reflexivity. Qed.

Lemma silent_for_next {hw : Type} `{Peripheral hw} (n : nat) (s : hw) :
  silent_for (S n) s ->
  status_of s = 0 /\ silent_for n (snd (mmio_read RNG_SR s)).
Proof.
  intros Hs. split.
  - apply (Hs 0%nat). lia.
  - intros j Hj. apply (Hs (S j)). lia.
Qed.

Lemma silent_forb_sound {hw : Type} `{Peripheral hw} (n : nat) (s : hw) :
  silent_forb n s = true -> silent_for n s.
Proof.
  unfold silent_forb, silent_for. rewrite forallb_forall. intros Hb j Hj.
  apply Z.eqb_eq, Hb, in_seq. lia.
Qed.

(** A non-zero status after [k] empty polls, within the budget [t]: the
    busy-wait makes [k + 1] polls and comes back with that status. *)
Lemma busy_wait_met {hw : Type} `{Peripheral hw} (k : nat) :
  forall (t : Z) (w : world hw),
    Z.of_nat k < t < 2 ^ 32 ->
    silent_for k (dev w) ->
    status_of (after_polls k (dev w)) <> 0 ->
    busy_wait t w =
    (status_of (after_polls k (dev w)),
     World (after_polls (S k) (dev w)) (clock w) (ram w)
           (log w ++ repeat (Readl RNG_SR 0) k
                  ++ [Readl RNG_SR (status_of (after_polls k (dev w)))])).
Proof.
  induction k as [|k IH]; intros t w Ht Hs Hnz; rewrite busy_wait_step, readl_eq.
  - cbn [after_polls] in *. fold (status_of (dev w)).
    destruct (Z.eqb_spec (status_of (dev w)) 0) as [E | _]; [contradiction | reflexivity].
  - destruct (silent_for_next _ _ Hs) as [Hz Hs'].
    fold (status_of (dev w)). rewrite Hz. change (0 =? 0) with true. cbv iota.
    assert (Hu : u32_of (t - 1) = t - 1) by (apply u32_of_small; lia).
    rewrite Hu. destruct (Z.eqb_spec (t - 1) 0) as [E | _]; [lia|].
    rewrite (IH (t - 1)); cbn [dev clock ram log]; [|lia | exact Hs' | exact Hnz].
    cbn [after_polls repeat app]. rewrite <- app_assoc. reflexivity.
Qed.

(** Nothing but zeros for the whole budget [t]: the busy-wait makes [t] polls
    and comes back empty-handed. *)
Lemma busy_wait_missed {hw : Type} `{Peripheral hw} (k : nat) :
  forall (t : Z) (w : world hw),
    1 <= t <= Z.of_nat k -> t < 2 ^ 32 ->
    silent_for k (dev w) ->
    fst (busy_wait t w) = 0 /\
    log (snd (busy_wait t w)) = log w ++ repeat (Readl RNG_SR 0) (Z.to_nat t) /\
    ram (snd (busy_wait t w)) = ram w.
Proof.
  induction k as [|k IH]; intros t w Ht Ht' Hs; [lia|].
  rewrite busy_wait_step, readl_eq.
  destruct (silent_for_next _ _ Hs) as [Hz Hs'].
  fold (status_of (dev w)). rewrite Hz. change (0 =? 0) with true. cbv iota.
  assert (Hu : u32_of (t - 1) = t - 1) by (apply u32_of_small; lia).
  rewrite Hu. destruct (Z.eqb_spec (t - 1) 0) as [E | NE].
  - replace t with 1 by lia. cbn [fst snd log ram]. auto.
  - match goal with
    | |- context [busy_wait (t - 1) ?w1] =>
        destruct (IH (t - 1) w1) as (Hf & Hl & Hr); [lia | lia | exact Hs' |]
    end.
    split; [exact Hf|]. split; [|exact Hr].
    rewrite Hl. cbn [log]. rewrite <- app_assoc.
    replace (Z.to_nat t) with (S (Z.to_nat (t - 1))) by lia. reflexivity.
Qed.

Lemma snapshot_met {hw : Type} `{Peripheral hw} (k : nat) (w : world hw) :
  (k <= Z.to_nat RNG_TIMEOUT)%nat ->
  silent_for k (dev w) ->
  status_of (after_polls k (dev w)) <> 0 ->
  snapshot true w =
  (status_of (after_polls k (dev w)),
   World (after_polls (S k) (dev w)) (clock w) (ram w)
         (log w ++ repeat (Readl RNG_SR 0) k
                ++ [Readl RNG_SR (status_of (after_polls k (dev w)))])).
Proof.
  intros Hk Hs Hnz. unfold snapshot, bind. rewrite readl_eq.
  fold (status_of (dev w)).
  destruct k as [|k].
  - cbn [after_polls repeat app] in *.
    destruct (Z.eqb_spec (status_of (dev w)) 0) as [E | _]; [contradiction | reflexivity].
  - destruct (silent_for_next _ _ Hs) as [Hz Hs'].
    rewrite Hz. change ((0 =? 0) && true) with true. cbv iota.
    rewrite (busy_wait_met k RNG_TIMEOUT); cbn [dev clock ram log];
      [|unfold RNG_TIMEOUT in *; lia | exact Hs' | exact Hnz].
    cbn [after_polls repeat app]. rewrite <- app_assoc. reflexivity.
Qed.

Lemma snapshot_missed {hw : Type} `{Peripheral hw} (w : world hw) :
  silent_for (S (Z.to_nat RNG_TIMEOUT)) (dev w) ->
  fst (snapshot true w) = 0 /\
  log (snd (snapshot true w)) = log w ++ repeat (Readl RNG_SR 0) (S (Z.to_nat RNG_TIMEOUT)) /\
  ram (snd (snapshot true w)) = ram w.
Proof.
  intros Hs. unfold snapshot, bind. rewrite readl_eq.
  fold (status_of (dev w)).
  destruct (silent_for_next _ _ Hs) as [Hz Hs'].
  rewrite Hz. change ((0 =? 0) && true) with true. cbv iota.
  match goal with
  | |- context [busy_wait RNG_TIMEOUT ?w1] =>
      destruct (busy_wait_missed (Z.to_nat RNG_TIMEOUT) RNG_TIMEOUT w1) as (Hf & Hl & Hr);
        [unfold RNG_TIMEOUT; lia | unfold RNG_TIMEOUT; lia | exact Hs' |]
  end.
  split; [exact Hf|]. split; [|exact Hr].
  rewrite Hl. cbn [log]. rewrite <- app_assoc. reflexivity.
Qed.


Lemma zeros_status_polls (k : nat) : status_polls (repeat (Readl RNG_SR 0) k) = k.
Proof. unfold status_polls. rewrite zeros_polls. apply repeat_length. Qed.

Lemma zeros_data_values (k : nat) : data_values (repeat (Readl RNG_SR 0) k) = [].
Proof. induction k as [|k IH]; [reflexivity | exact IH]. Qed.

Lemma drain_met {hw : Type} `{Peripheral hw} (k : nat) (data max : Z) (w : world hw) :
  (k <= Z.to_nat RNG_TIMEOUT)%nat ->
  sizeof_u32 < max <= 2 * sizeof_u32 ->
  silent_for k (dev w) ->
  status_of (after_polls k (dev w)) <> 0 ->
  ~ fault (status_of (after_polls k (dev w))) ->
  let sr := status_of (after_polls k (dev w)) in
  let v := u32_of (fst (mmio_read RNG_DR (after_polls (S k) (dev w)))) in
  fst (drain max data 0 true w) = sizeof_u32 /\
  log (snd (drain max data 0 true w)) =
    log w ++ repeat (Readl RNG_SR 0) k ++ [Readl RNG_SR sr; Readl RNG_DR v; Store32 data v] /\
  ram (snd (drain max data 0 true w)) = store_u32 data v (ram w).
Proof.
  intros Hk Hmax Hs Hnz Hnf. cbv zeta.
  rewrite drain_step.
  destruct (Z.gtb_spec max sizeof_u32) as [_ | Hle]; [|lia].
  unfold drain_word, bind.
  rewrite (snapshot_met k w Hk Hs Hnz).
  unfold WARN_ON.
  destruct (Z.eqb_spec (Z.land (status_of (after_polls k (dev w)))
                               (Z.lor RNG_SR_SEIS RNG_SR_CEIS)) 0) as [_ | F];
    [|contradiction].
  destruct (Z.eqb_spec (status_of (after_polls k (dev w))) 0) as [E | _]; [contradiction|].
  cbv beta iota. rewrite readl_eq.
  unfold poke_u32, ret. cbn [dev clock ram log].
  rewrite drain_step.
  destruct (Z.gtb_spec (max - sizeof_u32) sizeof_u32) as [Hgt | _]; [lia|].
  cbn [fst snd log ram].
  split; [reflexivity|]. split; [|reflexivity].
  rewrite <- !app_assoc. reflexivity.
Qed.

Lemma drain_missed {hw : Type} `{Peripheral hw} (data max : Z) (w : world hw) :
  sizeof_u32 < max ->
  silent_for (S (Z.to_nat RNG_TIMEOUT)) (dev w) ->
  fst (drain max data 0 true w) = 0 /\
  log (snd (drain max data 0 true w)) =
    log w ++ repeat (Readl RNG_SR 0) (S (Z.to_nat RNG_TIMEOUT)) /\
  ram (snd (drain max data 0 true w)) = ram w.
Proof.
  intros Hmax Hs.
  rewrite drain_step.
  destruct (Z.gtb_spec max sizeof_u32) as [_ | Hle]; [|lia].
  unfold drain_word, bind.
  destruct (snapshot_missed w Hs) as (Hf & Hl & Hr).
  destruct (snapshot true w) as [sr w1]. cbn [fst snd] in Hf, Hl, Hr. subst sr.
  unfold WARN_ON.
  change (Z.land 0 (Z.lor RNG_SR_SEIS RNG_SR_CEIS) =? 0) with true. cbv beta iota.
  change (0 =? 0) with true. cbv beta iota. unfold ret. cbn [fst snd].
  auto.
Qed.

(** The loop of [stm32_rng_read] starts from the peripheral as [acquired]. *)
Lemma stm32_rng_read_acquired {hw : Type} `{Peripheral hw}
    (data max : Z) (wait : bool) (w : world hw) :
  let cr := u32_of (fst (mmio_read RNG_CR (dev w))) in
  exists w3 : world hw,
    dev w3 = acquired (dev w) /\
    ram w3 = ram w /\
    log w3 = log w ++ [ClkEnable; Readl RNG_CR cr; Writel (Z.lor cr RNG_CR_RNGEN) RNG_CR] /\
    fst (stm32_rng_read data max wait w) = read_result (fst (drain max data 0 wait w3)) wait /\
    ram (snd (stm32_rng_read data max wait w)) = ram (snd (drain max data 0 wait w3)) /\
    log (snd (stm32_rng_read data max wait w)) =
      log (snd (drain max data 0 wait w3)) ++ [Writel cr RNG_CR; ClkDisable].
Proof.
  cbv zeta.
  remember (stm32_rng_read data max wait w) as res eqn:Eres.
  unfold stm32_rng_read, bind, clk_enable in Eres.
  rewrite readl_eq in Eres.
  unfold writel, clk_disable, ret in Eres. cbn [dev clock ram log] in Eres.
  match type of Eres with
  | context [drain max data 0 wait ?w3] => exists w3; destruct (drain max data 0 wait w3) as [rv w4]
  end.
  subst res. cbn [fst snd dev clock ram log].
  split; [reflexivity|]. split; [reflexivity|].
  split.
  - rewrite u32_of_lor, u32_of_idem, RNGEN_u32, <- !app_assoc. reflexivity.
  - split; [reflexivity|]. split; [reflexivity|].
    rewrite u32_of_idem, <- !app_assoc. reflexivity.
Qed.

(** X8. The budget of a waiting call is exact, whatever the peripheral.
    Count the status reads from the moment the generator is enabled.  When
    the first [k] of them give zero and the next one a non-zero status
    without fault, with [k <= RNG_TIMEOUT], a waiting call for one word (more
    than four and at most eight bytes) makes [k + 1] polls, returns 4 and
    leaves in the buffer the word the data register then presents.  When the
    first [RNG_TIMEOUT + 1] give zero, a waiting call for more than four
    bytes makes exactly these polls, reads no data, leaves memory alone and
    returns [-EIO]. *)
Theorem wait_budget_is_exact {hw : Type} `{Peripheral hw}
    (k : nat) (data max : Z) (w : world hw) :
  let s0 := acquired (dev w) in
  let res := stm32_rng_read data max true w in
  let evs := emitted w (snd res) in
  ((k <= Z.to_nat RNG_TIMEOUT)%nat ->
   sizeof_u32 < max <= 2 * sizeof_u32 ->
   silent_for k s0 ->
   status_of (after_polls k s0) <> 0 ->
   ~ fault (status_of (after_polls k s0)) ->
   let v := u32_of (fst (mmio_read RNG_DR (after_polls (S k) s0))) in
   fst res = sizeof_u32 /\
   status_polls evs = S k /\
   data_values evs = [v] /\
   load_u32 (ram (snd res)) data = v) /\
  (sizeof_u32 < max ->
   silent_for (S (Z.to_nat RNG_TIMEOUT)) s0 ->
   fst res = - EIO /\
   status_polls evs = S (Z.to_nat RNG_TIMEOUT) /\
   data_reads evs = 0%nat /\
   ram (snd res) = ram w).
Proof.
  cbv zeta.
  destruct (stm32_rng_read_acquired data max true w)
    as (w3 & Hd & Hr3 & Hl3 & Hres & Hr & Hl).
  cbv zeta in Hl3, Hl. rewrite <- Hd.
  split.
  - intros Hk Hmax Hs Hnz Hnf.
    destruct (drain_met k data max w3 Hk Hmax Hs Hnz Hnf) as (Hf & Hl' & Hr').
    cbv zeta in Hl'. rewrite Hl', Hl3, <- !app_assoc in Hl.
    rewrite (emitted_app _ _ _ Hl), Hres, Hf, Hr, Hr'.
    split; [reflexivity|].
    split; [|split].
    + cbn [app].
      change (ClkEnable :: ?a :: ?b :: ?l) with ([ClkEnable; a; b] ++ l).
      rewrite !status_polls_app, zeros_status_polls.
      unfold status_polls. cbn [filter is_poll length].
      change (RNG_CR =? RNG_SR) with false. change (RNG_SR =? RNG_SR) with true.
      change (RNG_DR =? RNG_SR) with false. cbn [length]. lia.
    + cbn [app data_values]. change (RNG_CR =? RNG_DR) with false. cbv iota.
      rewrite data_values_app, zeros_data_values.
      cbn [app data_values]. change (RNG_SR =? RNG_DR) with false.
      change (RNG_DR =? RNG_DR) with true. reflexivity.
    + apply load_store_u32, u32_of_range.
  - intros Hmax Hs.
    destruct (drain_missed data max w3 Hmax Hs) as (Hf & Hl' & Hr').
    rewrite Hl', Hl3, <- !app_assoc in Hl.
    rewrite (emitted_app _ _ _ Hl), Hres, Hf, Hr, Hr'.
    split; [reflexivity|].
    split; [|split; [|exact Hr3]].
    + cbn [app].
      change (ClkEnable :: ?a :: ?b :: ?l) with ([ClkEnable; a; b] ++ l).
      rewrite !status_polls_app, zeros_status_polls.
      unfold status_polls. cbn [filter is_poll length].
      change (RNG_CR =? RNG_SR) with false. cbn [length]. lia.
    + cbn [app].
      change (ClkEnable :: ?a :: ?b :: ?l) with ([ClkEnable; a; b] ++ l).
      rewrite !data_reads_app. unfold data_reads. rewrite zeros_data_reads.
      cbn [filter is_data_read length].
      change (RNG_CR =? RNG_DR) with false. reflexivity.
Qed.

(** X8 at work, at the edge: Data-Ready on the last poll of the budget. *)
Lemma wait_budget_is_exact_witness :
  let w := fresh (ready_after 500 77) in
  let res := stm32_rng_read 0 8 true w in
  (500 <= Z.to_nat RNG_TIMEOUT)%nat /\
  sizeof_u32 < 8 <= 2 * sizeof_u32 /\
  silent_for 500 (acquired (dev w)) /\
  fst res = sizeof_u32 /\
  status_polls (emitted w (snd res)) = 501%nat /\
  load_u32 (ram (snd res)) 0 = 77.
Proof.
  cbv zeta.
  assert (Hk : (500 <= Z.to_nat RNG_TIMEOUT)%nat) by (vm_compute; apply le_n).
  assert (Hmax : sizeof_u32 < 8 <= 2 * sizeof_u32) by (split; [reflexivity | discriminate]).
  assert (Hs : silent_for 500 (acquired (dev (fresh (ready_after 500 77)))))
    by (apply silent_forb_sound; vm_compute; reflexivity).
  assert (Hnz : status_of (after_polls 500 (acquired (dev (fresh (ready_after 500 77))))) <> 0)
    by (vm_compute; discriminate).
  assert (Hnf : ~ fault (status_of (after_polls 500 (acquired (dev (fresh (ready_after 500 77)))))))
    by (intros F; apply F; vm_compute; reflexivity).
  split; [exact Hk|]. split; [exact Hmax|]. split; [exact Hs|].
  destruct (proj1 (wait_budget_is_exact 500 0 8 (fresh (ready_after 500 77)))
              Hk Hmax Hs Hnz Hnf) as (Hres & Hpolls & _ & Hload).
  split; [exact Hres|]. split; [exact Hpolls|]. exact Hload.
Defined.

(** ** Binding to a device: facts *)

Lemma called_since_app (d : platform_device) (h : option stm32_rng_private)
  (p : bool) (evs : list bind_event) :
  called_since d (Pdev h p (calls d ++ evs)) = evs.
Proof.
  unfold called_since. cbn [calls].
  rewrite skipn_app, skipn_all, Nat.sub_diag. reflexivity.
Qed.

Ltac bind_run :=
  cbv [stm32_rng_probe stm32_rng_remove err_out bbind bret called kzalloc
       dev_set_drvdata dev_get_drvdata deref assign of_iomap devm_clk_get
       hwrng_register hwrng_unregister iounmap kfree dev_err
       heap drvdata calls priv_rng priv_base priv_clk negb
       kzalloc_ok of_iomap_ret devm_clk_get_ret hwrng_register_ret];
  rewrite <- ?app_assoc; cbn [app].

(** On a device whose driver data points to a live structure,
    [stm32_rng_remove] unregisters, unmaps the recorded base and frees. *)
Lemma stm32_rng_remove_bound (d : platform_device) (o : stm32_rng_private) :
  heap d = Some o -> drvdata d = true ->
  stm32_rng_remove d =
  Some (0, Pdev None true (calls d ++ [HwrngUnregister; Iounmap (priv_base o); Kfree])).
Proof.
  destruct d as [h p cs]. cbn [heap drvdata calls]. intros -> ->.
  bind_run. reflexivity.
Qed.

(** The run of [stm32_rng_probe], path by path. *)
Lemma stm32_rng_probe_run (s : services) (d : platform_device) :
  stm32_rng_probe s d =
  if negb (kzalloc_ok s) then
    Some (Known (- ENOMEM), Pdev (heap d) (drvdata d) (calls d ++ [Kzalloc false]))
  else if of_iomap_ret s =? 0 then
    Some (Known (- ENOMEM),
          Pdev None true
            (calls d ++ [Kzalloc true; DevSetDrvdata; OfIomap (of_iomap_ret s);
                         DevErr FailedIomap;
                         HwrngUnregister; Iounmap (of_iomap_ret s); Kfree]))
  else if IS_ERR (devm_clk_get_ret s) then
    Some (Unassigned,
          Pdev None true
            (calls d ++ [Kzalloc true; DevSetDrvdata; OfIomap (of_iomap_ret s);
                         DevmClkGet (devm_clk_get_ret s); DevErr NoClock;
                         HwrngUnregister; Iounmap (of_iomap_ret s); Kfree]))
  else if negb (hwrng_register_ret s =? 0) then
    Some (Known (hwrng_register_ret s),
          Pdev None true
            (calls d ++ [Kzalloc true; DevSetDrvdata; OfIomap (of_iomap_ret s);
                         DevmClkGet (devm_clk_get_ret s);
                         HwrngRegister (hwrng_register_ret s);
                         DevErr (FailedRegister (hwrng_register_ret s));
                         HwrngUnregister; Iounmap (of_iomap_ret s); Kfree]))
  else
    Some (Known 0,
          Pdev (Some (Priv true (of_iomap_ret s) (devm_clk_get_ret s))) true
            (calls d ++ [Kzalloc true; DevSetDrvdata; OfIomap (of_iomap_ret s);
                         DevmClkGet (devm_clk_get_ret s);
                         HwrngRegister (hwrng_register_ret s)])).
Proof.
  destruct d as [h p cs], s as [ok base ptr err].
  cbn [kzalloc_ok of_iomap_ret devm_clk_get_ret hwrng_register_ret heap drvdata calls].
  destruct ok; bind_run; [|reflexivity].
  destruct (base =? 0); bind_run; [reflexivity|].
  destruct (IS_ERR ptr); bind_run; [reflexivity|].
  destruct (err =? 0); bind_run; reflexivity.
Qed.

Lemma all_well_inv (s : services) :
  all_well s = true ->
  kzalloc_ok s = true /\ (of_iomap_ret s =? 0) = false /\
  IS_ERR (devm_clk_get_ret s) = false /\ (hwrng_register_ret s =? 0) = true.
Proof.
  unfold all_well. rewrite !andb_true_iff, !negb_true_iff. tauto.
Qed.




(** X11.  A probe that succeeds leaves the device bound: the structure is
    filled in with the mapping, the clock and the callbacks, the driver data
    points to it, and nothing has been released.  [stm32_rng_remove] then
    returns 0 after unregistering, unmapping that same address and freeing,
    once each.  It leaves the driver data pointing to the freed structure:
    a second [stm32_rng_remove] follows that pointer. *)
Theorem probe_then_remove (s : services) (d : platform_device) :
  all_well s = true ->
  exists d' d'',
    stm32_rng_probe s d = Some (Known 0, d') /\
    heap d' = Some (Priv true (of_iomap_ret s) (devm_clk_get_ret s)) /\
    drvdata d' = true /\
    called_since d d' =
      [Kzalloc true; DevSetDrvdata; OfIomap (of_iomap_ret s);
       DevmClkGet (devm_clk_get_ret s); HwrngRegister 0] /\
    stm32_rng_remove d' = Some (0, d'') /\
    called_since d' d'' =
      [HwrngUnregister; Iounmap (of_iomap_ret s); Kfree] /\
    heap d'' = None /\ drvdata d'' = true /\
    stm32_rng_remove d'' = None.
Proof.
  intros Hok. destruct (all_well_inv s Hok) as (Hk & Hb & Hc & He).
  rewrite stm32_rng_probe_run, Hk, Hb, Hc, He. cbn [negb].
  apply Z.eqb_eq in He. rewrite He.
  eexists _, _. split; [reflexivity|].
  cbn [heap drvdata]. split; [reflexivity|]. split; [reflexivity|].
  rewrite called_since_app. split; [reflexivity|].
  erewrite stm32_rng_remove_bound by reflexivity.
  split; [reflexivity|]. cbn [calls priv_base heap drvdata].
  unfold called_since. cbn [calls].
  rewrite skipn_app, skipn_all, Nat.sub_diag.
  cbn [app skipn]. repeat split.
Qed.

(** X11 at work. *)
Lemma probe_then_remove_witness :
  let s := Services true 4096 8192 0 in
  let d := Pdev None false [] in
  all_well s = true /\
  exists d' d'',
    stm32_rng_probe s d = Some (Known 0, d') /\
    stm32_rng_remove d' = Some (0, d'') /\
    calls d'' = [Kzalloc true; DevSetDrvdata; OfIomap 4096; DevmClkGet 8192;
                 HwrngRegister 0; HwrngUnregister; Iounmap 4096; Kfree] /\
    stm32_rng_remove d'' = None.
Proof.
  cbv zeta.
  assert (Hok : all_well (Services true 4096 8192 0) = true) by reflexivity.
  split; [exact Hok|].
  destruct (probe_then_remove (Services true 4096 8192 0) (Pdev None false []) Hok)
    as (d' & d'' & Hrun & _ & _ & _ & Hrem & _ & _ & _ & Hagain).
  exists d', d''. split; [exact Hrun|]. split; [exact Hrem|]. split; [|exact Hagain].
  vm_compute in Hrun. injection Hrun as Hd. subst d'.
  vm_compute in Hrem. injection Hrem as Hd. subst d''.
  reflexivity.
Defined.
